(** * Network listener: correlation of request and response events

    A shallow embedding of [network-listener.js].  The script runs in the
    background page of a browser extension: it listens to the events of the
    debugger protocol, stores the parameters of every interesting request
    in [chrome.storage.local], and when the response arrives builds one
    event record out of both and posts it to the collector.

    JavaScript values are a tree type, the asynchronous host interfaces
    (storage, debugger commands, XMLHttpRequest, console) are the
    constructors of a small program type whose continuations are the
    callbacks of the script, and an interpreter runs such a program against
    a host that answers the calls.  The host answers each call at once: a
    handler runs with its callbacks to the end before the listener takes
    the next event. *)

From Stdlib Require Import Ascii String ZArith QArith.
From stdpp Require Import gmap strings list fin_maps pretty.

Set Warnings "-register-all".

Close Scope Q_scope.

Local Open Scope string_scope.
Local Open Scope Z_scope.

(** ** JavaScript values *)

Module Js.

(** The values the script handles are those a protocol message is made of.
    Numbers are the integer-valued ones; an object is the list of its own
    properties in enumeration order. *)
Inductive value : Type :=
| Undefined
| Null
| Bool (b : bool)
| Num (n : Z)
| Str (s : string)
| Arr (items : list value)
| Obj (props : list (string * value)).

(** [ToBoolean]: what [!v], [v && w] and [v ? a : b] test. *)
Definition truthy (v : value) : bool :=
  match v with
  | Undefined | Null => false
  | Bool b => b
  | Num n => negb (n =? 0)
  | Str s => negb (String.eqb s "")
  | Arr _ | Obj _ => true
  end.

(** [a && b] yields [a] itself when [a] is falsy, and [b] otherwise. *)
Definition and (a b : value) : value := if truthy a then b else a.

(** Property read [o.k] on a value that is neither [undefined] nor [null]
    (the script reads properties of such a value only behind a truthiness
    test); a missing property reads as [undefined]. *)
Fixpoint assoc (k : string) (props : list (string * value)) : value :=
  match props with
  | [] => Undefined
  | (k', v) :: rest => if String.eqb k k' then v else assoc k rest
  end.

Definition member (o : value) (k : string) : value :=
  match o with
  | Obj props => assoc k props
  | _ => Undefined
  end.

(** *** Numbers read off a string *)

(** The value of a [Number]: not a number, an infinity, or a double, kept
    as the rational it is. *)
Inductive number : Type :=
| NaN
| Infinity (negative : bool)
| Finite (q : Q).

(** The white space [ToNumber] drops around the literal.  A character is a
    code unit below 256: tab, line feed, vertical tab, form feed, carriage
    return, space and the no-break space. *)
Definition is_space (c : ascii) : bool :=
  let n := N_of_ascii c in
  ((9 <=? n) && (n <=? 13) || (n =? 32) || (n =? 160))%N.

Fixpoint trim_left (s : string) : string :=
  match s with
  | String c rest => if is_space c then trim_left rest else s
  | EmptyString => s
  end.

Definition trim (s : string) : string :=
  String.rev (trim_left (String.rev (trim_left s))).

(** The digit a character is in a base up to sixteen. *)
Definition digit (base : Z) (c : ascii) : option Z :=
  let n := Z.of_N (N_of_ascii c) in
  let d := if (48 <=? n) && (n <=? 57) then n - 48
           else if (97 <=? n) && (n <=? 102) then n - 87
           else if (65 <=? n) && (n <=? 70) then n - 55
           else base in
  if d <? base then Some d else None.

(** A string made of digits only, read in a base. *)
Fixpoint digits (base acc : Z) (s : string) : option Z :=
  match s with
  | EmptyString => Some acc
  | String c rest =>
      match digit base c with
      | Some d => digits base (base * acc + d) rest
      | None => None
      end
  end.

(** The decimal digits a string starts with: their value on top of [acc],
    how many they are on top of [count], and what follows them. *)
Fixpoint leading (acc count : Z) (s : string) : Z * Z * string :=
  match s with
  | String c rest =>
      match digit 10 c with
      | Some d => leading (10 * acc + d) (count + 1) rest
      | None => (acc, count, s)
      end
  | EmptyString => (acc, count, s)
  end.

(** [2 ^ k] for an exponent of either sign. *)
Definition pow2 (k : Z) : Q :=
  if 0 <=? k then inject_Z (2 ^ k) else Qmake 1 (Z.to_pos (2 ^ (- k))).

(** The double nearest to [a / b], for [0 <= a] and [0 < b]: 53 bits of
    precision, ties to the even significand, subnormals below
    [2 ^ -1022], infinity from [2 ^ 1024] on. *)
Definition round_double (a b : Z) : number :=
  if a =? 0 then Finite 0
  else
    let e0 := Z.log2 a - Z.log2 b in
    let above := if 0 <=? e0 then b * 2 ^ e0 <=? a
                 else b <=? a * 2 ^ (- e0) in
    let e := if above then e0 else e0 - 1 in
    let k := Z.max e (-1022) - 52 in
    let num := if 0 <=? k then a else a * 2 ^ (- k) in
    let den := if 0 <=? k then b * 2 ^ k else b in
    let q := num / den in
    let r := num mod den in
    let m := if 2 * r <? den then q
             else if den <? 2 * r then q + 1
             else if Z.even q then q else q + 1 in
    if (1024 <=? e) || ((k =? 971) && (m =? 2 ^ 53)) then Infinity false
    else Finite (Qmult (inject_Z m) (pow2 k)).

(** [mant * 10 ^ e10] as a double. *)
Definition decimal (mant e10 : Z) : number :=
  if 0 <=? e10 then round_double (mant * 10 ^ e10) 1
  else round_double mant (10 ^ (- e10)).

(** The exponent part of a decimal literal, [None] when it is malformed:
    nothing, or [e] or [E], a sign or none, and digits to the end. *)
Definition exponent (s : string) : option Z :=
  match s with
  | EmptyString => Some 0
  | String c rest =>
      if (Ascii.eqb c "e" || Ascii.eqb c "E")%char then
        match rest with
        | String "+" (String d ds) => digits 10 0 (String d ds)
        | String "-" (String d ds) => Z.opp <$> digits 10 0 (String d ds)
        | String d ds => digits 10 0 (String d ds)
        | EmptyString => None
        end
      else None
  end.

(** A decimal literal without its sign: [Infinity], or digits with a
    fraction and an exponent, of which the digits before or after the dot
    may be missing, not both. *)
Definition unsigned (s : string) : number :=
  if String.eqb s "Infinity" then Infinity false
  else
    let '(int, ni, r1) := leading 0 0 s in
    let '(mant, nf, r2) :=
      match r1 with
      | String "." rest => leading int 0 rest
      | _ => (int, 0, r1)
      end in
    if ni + nf =? 0 then NaN
    else match exponent r2 with
         | Some e => decimal mant (e - nf)
         | None => NaN
         end.

Definition negate (x : number) : number :=
  match x with
  | NaN => NaN
  | Infinity negative => Infinity (negb negative)
  | Finite q => Finite (Qopp q)
  end.

(** A literal in base 2, 8 or 16, after its prefix: digits, at least one. *)
Definition non_decimal (base : Z) (s : string) : number :=
  match s with
  | EmptyString => NaN
  | _ => match digits base 0 s with
         | Some n => round_double n 1
         | None => NaN
         end
  end.

(** [ToNumber] of a string: the white space around is dropped; the empty
    string is [0]; [0x], [0o] and [0b] (in either case) start an unsigned
    literal in that base; otherwise the string is a decimal literal with
    a sign or none; anything else is [NaN]. *)
Definition StringToNumber (s : string) : number :=
  match trim s with
  | EmptyString => Finite 0
  | String "0" (String p rest) =>
      if (Ascii.eqb p "x" || Ascii.eqb p "X")%char then non_decimal 16 rest
      else if (Ascii.eqb p "o" || Ascii.eqb p "O")%char then non_decimal 8 rest
      else if (Ascii.eqb p "b" || Ascii.eqb p "B")%char then non_decimal 2 rest
      else unsigned (trim s)
  | String "+" rest => unsigned rest
  | String "-" rest => negate (unsigned rest)
  | t => unsigned t
  end.

(** [x >= n] and [x < n] against a number literal; false on [NaN]. *)
Definition ge (x : number) (n : Z) : value :=
  match x with
  | Finite q => Bool (Qle_bool (inject_Z n) q)
  | Infinity negative => Bool (negb negative)
  | NaN => Bool false
  end.

Definition lt (x : number) (n : Z) : value :=
  match x with
  | Finite q => Bool (negb (Qle_bool (inject_Z n) q))
  | Infinity negative => Bool negative
  | NaN => Bool false
  end.

(** *** JSON.stringify *)

Definition dquote : ascii := "034"%char.
Definition backslash : ascii := "092"%char.

Definition hex_digit (n : N) : ascii :=
  match n with
  | 0 => "0" | 1 => "1" | 2 => "2" | 3 => "3" | 4 => "4" | 5 => "5"
  | 6 => "6" | 7 => "7" | 8 => "8" | 9 => "9" | 10 => "a" | 11 => "b"
  | 12 => "c" | 13 => "d" | 14 => "e" | _ => "f"
  end%N%char.

(** One character of a quoted JSON string. *)
Definition escape_char (c : ascii) : string :=
  let n := N_of_ascii c in
  if (n =? 34)%N then String backslash (String dquote "")
  else if (n =? 92)%N then String backslash (String backslash "")
  else if (n =? 8)%N then String backslash "b"
  else if (n =? 12)%N then String backslash "f"
  else if (n =? 10)%N then String backslash "n"
  else if (n =? 13)%N then String backslash "r"
  else if (n =? 9)%N then String backslash "t"
  else if (n <? 32)%N then
    String backslash
      (String "u" (String "0" (String "0"
        (String (hex_digit (n / 16)) (String (hex_digit (n mod 16)) "")))))
  else String c "".

Fixpoint escape (s : string) : string :=
  match s with
  | EmptyString => ""
  | String c rest => escape_char c +:+ escape rest
  end.

Definition quote (s : string) : string :=
  String dquote (escape s +:+ String dquote "").

Fixpoint join (sep : string) (parts : list string) : string :=
  match parts with
  | [] => ""
  | [p] => p
  | p :: rest => p +:+ sep +:+ join sep rest
  end.

(** [JSON.stringify v]; [None] is the [undefined] it returns for a value
    that has no JSON text.  An [undefined] array item is written [null],
    an [undefined] property is left out. *)
Fixpoint stringify (v : value) : option string :=
  match v with
  | Undefined => None
  | Null => Some "null"
  | Bool true => Some "true"
  | Bool false => Some "false"
  | Num n => Some (pretty n)
  | Str s => Some (quote s)
  | Arr items =>
      Some ("[" +:+ join "," (map (fun x => default "null" (stringify x)) items) +:+ "]")
  | Obj props =>
      let member := fix member (ps : list (string * value)) : list string :=
        match ps with
        | [] => []
        | (k, x) :: rest =>
            match stringify x with
            | Some t => (quote k +:+ ":" +:+ t) :: member rest
            | None => member rest
            end
        end in
      Some ("{" +:+ join "," (member props) +:+ "}")
  end.

(** The value of the expression [JSON.stringify(v)]. *)
Definition JSON_stringify (v : value) : value :=
  match stringify v with
  | Some t => Str t
  | None => Undefined
  end.

End Js.

Import Js.

(** ** The pure functions of the script *)

(** [const resources = ['XHR', 'Fetch']] *)
Definition resources : list string := ["XHR"; "Fetch"].

(** [Array.prototype.indexOf] with strict equality, [-1] when not found. *)
Fixpoint indexOf_from (i : Z) (l : list string) (v : value) : Z :=
  match l with
  | [] => -1
  | x :: rest =>
      match v with
      | Str s => if String.eqb x s then i else indexOf_from (i + 1) rest v
      | _ => indexOf_from (i + 1) rest v
      end
  end.

Definition indexOf (l : list string) (v : value) : Z := indexOf_from 0 l v.

(** [function importantResourceType(type) {
       return type && resources.indexOf(type) > -1; }] *)
Definition importantResourceType (type : value) : value :=
  Js.and type (Bool (-1 <? indexOf resources type)).

(** [function tryToStringify(val)] *)
Definition tryToStringify (val : value) : value :=
  if negb (truthy val) then Str ""
  else match val with
       | Str _ => val
       | _ => JSON_stringify val
       end.

(** ** Protocol messages and the event record *)

(** The [request] member of a [Network.requestWillBeSent] message. *)
Record Request : Type := {
  url : value;
  method : value;
  hasPostData : value;
  postData : value;
}.

(** The [response] member of a [Network.responseReceived] message. *)
Record Response : Type := {
  status : value;
}.

(** The [params] of a debugger event.  The identifier is a string in the
    protocol; [request] and [response] are the members only the message of
    that kind carries. *)
Record Params : Type := {
  requestId : string;
  timestamp : value;
  type : value;
  request : option Request;
  response : option Response;
}.

(** [params.request.postData = data] *)
Definition set_postData (data : value) (params : Params) : Params :=
  {| requestId := requestId params;
     timestamp := timestamp params;
     type := type params;
     request :=
       (fun r => {| url := url r; method := method r;
                    hasPostData := hasPostData r; postData := data |})
         <$> request params;
     response := response params |}.

(** The object [createEvent] returns. *)
Module Event.
Record t : Type := {
  requestId : string;
  timestamp : value;
  type : value;
  url : value;
  method : value;
  status : value;
  requestBody : value;
  responseBody : value;
  responseBodyBase64Encoded : value;
}.
End Event.

(** Reading a property of [undefined], with the name of the property. *)
Inductive error : Type :=
| TypeError (property : string).

(** [function createEvent({ responseBody, requestParams, responseParams })].
    [requestParams] is [storage[params.requestId]], [undefined] when the
    store has no entry; the members are evaluated in the order written. *)
Definition createEvent (responseBody : value) (requestParams : option Params)
    (responseParams : Params) : error + Event.t :=
  match requestParams with
  | None => inl (TypeError "requestId")
  | Some rp =>
      match request rp with
      | None => inl (TypeError "url")
      | Some rq =>
          match response responseParams with
          | None => inl (TypeError "status")
          | Some rs =>
              inr {| Event.requestId := requestId rp;
                     Event.timestamp := timestamp rp;
                     Event.type := type rp;
                     Event.url := url rq;
                     Event.method := method rq;
                     Event.status := status rs;
                     Event.requestBody := tryToStringify (postData rq);
                     Event.responseBody :=
                       if truthy responseBody
                       then tryToStringify (member responseBody "body")
                       else Str "";
                     Event.responseBodyBase64Encoded :=
                       if truthy responseBody
                       then member responseBody "base64Encoded"
                       else Bool false |}
          end
      end
  end.

(** ** Handlers as programs over the host interfaces *)

(** A handler is a tree of host calls; the function under a call is the
    callback the script passes to it. *)
Inductive proc : Type :=
| Return
| Throw (e : error)
| StorageSet (key : string) (v : Params) (next : proc)
| StorageGet (key : string) (callback : option Params → proc)
| StorageRemove (key : string) (next : proc)
| SendCommand (tabId : Z) (command : string) (id : string)
    (callback : value → proc)
| XhrPost (target : string) (body : Event.t) (done : Z → proc)
| GlobalStatus (next : string → proc)
| ConsoleLog (event : Event.t) (isSuccess : value) (next : proc).

(** [config[env].baseUrl] with [env = 'dev'] *)
Definition baseUrl : string := "http://localhost:3000".

(** [status >= 200 && status < 400], for the value [status] of the global
    of that name. *)
Definition isSuccess (status : string) : value :=
  Js.and (ge (StringToNumber status) 200) (lt (StringToNumber status) 400).

(** [function collectNetworkEvent(event, callback)].  The listener runs
    when the request is done; it does not read [xhr.status], the [status]
    it tests is not bound in the script and so is the global. *)
Definition collectNetworkEvent (event : Event.t) (callback : value → proc) : proc :=
  XhrPost (baseUrl +:+ "/events") event
    (fun _ => GlobalStatus (fun status => callback (isSuccess status))).

(** [function onRequestWillBeSent(tabId, params)] *)
Definition onRequestWillBeSent (tabId : Z) (params : Params) : proc :=
  match request params with
  | None => Throw (TypeError "hasPostData")
  | Some rq =>
      if truthy (hasPostData rq) && negb (truthy (postData rq)) then
        SendCommand tabId "Network.getRequestPostData" (requestId params)
          (fun data =>
             StorageSet (requestId params) (set_postData data params) Return)
      else StorageSet (requestId params) params Return
  end.

(** [function onResponseReceived(tabId, params)] *)
Definition onResponseReceived (tabId : Z) (params : Params) : proc :=
  StorageGet (requestId params) (fun stored =>
    SendCommand tabId "Network.getResponseBody" (requestId params)
      (fun response =>
         match createEvent response stored params with
         | inl e => Throw e
         | inr event =>
             collectNetworkEvent event (fun isSuccess =>
               ConsoleLog event isSuccess
                 (StorageRemove (requestId params) Return))
         end)).

(** [function onNetworkEvent(tabId)] applied to an event of the debugger;
    [debuggeeTab] is [debuggeeId.tabId], absent when the debuggee is not a
    tab. *)
Definition onNetworkEvent (tabId : Z) (debuggeeTab : option Z)
    (message : string) (params : Params) : proc :=
  if negb (bool_decide (debuggeeTab = Some tabId)) then Return
  else if negb (truthy (importantResourceType (type params))) then Return
  else if String.eqb message "Network.requestWillBeSent"
       then onRequestWillBeSent tabId params
  else if String.eqb message "Network.responseReceived"
       then onResponseReceived tabId params
  else Return.

(** ** The host *)

(** What the environment answers: the result the debugger passes to the
    callback of a command ([undefined] when the command fails), the HTTP
    status the collector answers a posted event with ([0] when the request
    does not get through), and the global [status] of the page, which the
    script never assigns. *)
Record host : Type := {
  debugger_reply : Z → string → string → value;
  xhr_status : Event.t → Z;
  window_status : string;
}.


(** The page as the browser starts it: the global [status] is the empty
    string. *)
Definition browser (reply : Z → string → string → value)
    (transport : Event.t → Z) : host :=
  {| debugger_reply := reply; xhr_status := transport; window_status := "" |}.

(** What the script changes: the storage area, the events handed to
    [xhr.send], and the lines of the console. *)
Record world : Type := {
  storage : gmap string Params;
  posted : list Event.t;
  console : list (Event.t * value);
}.

Definition storage_set (key : string) (v : Params) (w : world) : world :=
  {| storage := <[key := v]> (storage w);
     posted := posted w; console := console w |}.

Definition storage_remove (key : string) (w : world) : world :=
  {| storage := delete key (storage w);
     posted := posted w; console := console w |}.

Definition post (event : Event.t) (w : world) : world :=
  {| storage := storage w;
     posted := posted w ++ [event]; console := console w |}.

Definition log (event : Event.t) (flag : value) (w : world) : world :=
  {| storage := storage w;
     posted := posted w; console := console w ++ [(event, flag)] |}.

(** Runs a handler with its callbacks to the end, each host call answered
    at once; the result is the world it leaves and the exception that
    ended it, if one did. *)
Fixpoint run (h : host) (p : proc) (w : world) : world * option error :=
  match p with
  | Return => (w, None)
  | Throw e => (w, Some e)
  | StorageSet key v next => run h next (storage_set key v w)
  | StorageGet key callback => run h (callback (storage w !! key)) w
  | StorageRemove key next => run h next (storage_remove key w)
  | SendCommand tabId command id callback =>
      run h (callback (debugger_reply h tabId command id)) w
  | XhrPost _ body done => run h (done (xhr_status h body)) (post body w)
  | GlobalStatus next => run h (next (window_status h)) w
  | ConsoleLog event flag next => run h next (log event flag w)
  end.

(** An event as the debugger delivers it to the listener. *)
Record delivery : Type := {
  debuggeeTab : option Z;
  message : string;
  params : Params;
}.

(** The listener of tab [tabId] takes the events in order; an exception
    ends the handler it was raised in and is kept, the listener stays. *)
Fixpoint deliver (h : host) (tabId : Z) (events : list delivery) (w : world)
    : world * list error :=
  match events with
  | [] => (w, [])
  | d :: rest =>
      let '(w1, e) := run h (onNetworkEvent tabId (debuggeeTab d) (message d) (params d)) w in
      let '(w2, es) := deliver h tabId rest w1 in
      (w2, (option_list e ++ es)%list)
  end.

(** The two events of one exchange, as the listener of the tab sees them. *)
Definition exchange (tabId : Z) (rp sp : Params) : list delivery :=
  [ {| debuggeeTab := Some tabId; message := "Network.requestWillBeSent";
       params := rp |};
    {| debuggeeTab := Some tabId; message := "Network.responseReceived";
       params := sp |} ].

(** The number of response events in a sequence. *)
Definition responses (events : list delivery) : nat :=
  length (filter (fun d => message d = "Network.responseReceived") events).

(** An event the listener has no use for: of another tab, of a type the
    filter stops, or of a message that is neither of the two. *)
Definition ignored (tabId : Z) (d : delivery) : Prop :=
  debuggeeTab d ≠ Some tabId
  ∨ (type (params d) ≠ Str "XHR" ∧ type (params d) ≠ Str "Fetch")
  ∨ (message d ≠ "Network.requestWillBeSent"
     ∧ message d ≠ "Network.responseReceived").

(** ** What the request handler stores *)

(** The request handler stores the parameters under the identifier, with
    the reply of the follow-up command as post data when the message
    marked the data as left out. *)
Definition stored_params (h : host) (tabId : Z) (params : Params)
    (rq : Request) : Params :=
  if truthy (hasPostData rq) && negb (truthy (postData rq))
  then set_postData
         (debugger_reply h tabId "Network.getRequestPostData" (requestId params))
         params
  else params.

(** ** Attaching the debugger to the tabs of the watch list *)

(** [const debuggerVersion = '1.0'] *)
Definition debuggerVersion : string := "1.0".

(** [const domainsStorageKey = 'watched_domains'] *)
Definition domainsStorageKey : string := "watched_domains".

(** [ToString], as [String.prototype.indexOf] applies it to its argument.
    An array is its items joined by commas, [null] and [undefined] items
    left empty. *)
Fixpoint ToString (v : value) : string :=
  match v with
  | Undefined => "undefined"
  | Null => "null"
  | Bool true => "true"
  | Bool false => "false"
  | Num n => pretty n
  | Str s => s
  | Arr items =>
      join ","
        (map (fun x => match x with
                       | Undefined | Null => ""
                       | _ => ToString x
                       end) items)
  | Obj _ => "[object Object]"
  end.

(** [s] is what [u] starts with. *)
Fixpoint starts_with (s u : string) : bool :=
  match s, u with
  | EmptyString, _ => true
  | String a s', String b u' => bool_decide (a = b) && starts_with s' u'
  | String _ _, EmptyString => false
  end.

(** [u.indexOf(s)] for strings: the first position of [s] in [u], counted
    from [i], and [-1] when [s] does not occur. *)
Fixpoint String_indexOf_from (i : Z) (u s : string) : Z :=
  if starts_with s u then i
  else match u with
       | EmptyString => -1
       | String _ rest => String_indexOf_from (i + 1) rest s
       end.

Definition String_indexOf (u : string) (s : value) : Z :=
  String_indexOf_from 0 u (ToString s).

(** [arr.some(p)]; a value that is no array has no method [some]. *)
Inductive exception : Type :=
| TypeErr (property : string)
| SyntaxErr.

Definition some (arr : value) (p : value → bool) : exception + bool :=
  match arr with
  | Arr items => inr (existsb p items)
  | _ => inl (TypeErr "some")
  end.

(** A target as [chrome.debugger.getTargets] lists it. *)
Module Target.
Record t : Type := {
  type : string;
  tabId : option Z;
  attached : bool;
}.
End Target.

(** The glue of the script as trees of host calls.  [StorageGetKey] passes
    [storage[key]] to its callback, [undefined] when the area has no such
    entry; [XhrGet] passes what [JSON.parse(this.responseText)] yields when
    the request is done, nothing when the text is no JSON; the callback of
    [Attach] runs when the attempt is over, whether it succeeded or not. *)
Inductive task : Type :=
| Done
| Fail (e : exception)
| StorageGetKey (key : string) (callback : value → task)
| StorageSetKey (key : string) (v : value) (next : task)
| XhrGet (target : string) (done : option value → task)
| GetTargets (callback : list Target.t → task)
| Attach (tabId : Z) (version : string) (callback : task)
| Detach (tabId : Z) (next : task)
| Enable (tabId : Z) (next : task)
| AddListener (tabId : Z) (next : task).

(** [function getPortalUrls(callback)] *)
Definition getPortalUrls (callback : value → task) : task :=
  StorageGetKey domainsStorageKey (fun stored =>
    if truthy stored then callback stored
    else
      XhrGet (baseUrl +:+ "/domains") (fun parsed =>
        match parsed with
        | None => Fail SyntaxErr
        | Some urls => StorageSetKey domainsStorageKey urls (callback urls)
        end)).

(** The [url] of a change or of a tab, a string or absent. *)
Definition of_url (url : option string) : value :=
  match url with
  | Some u => Str u
  | None => Undefined
  end.

(** [function shouldListen(url, callback)]: the callback receives
    [url && portalUrls.some((s) => url.indexOf(s) > -1)]. *)
Definition shouldListen (url : option string) (callback : value → task) : task :=
  getPortalUrls (fun portalUrls =>
    match url with
    | Some u =>
        if truthy (of_url url) then
          match some portalUrls (fun s => -1 <? String_indexOf u s) with
          | inl e => Fail e
          | inr found => callback (Bool found)
          end
        else callback (of_url url)
    | None => callback (of_url url)
    end).

(** [function runIfNotAttached(tabId, callback)] *)
Definition runIfNotAttached (tabId : Z) (callback : task) : task :=
  GetTargets (fun targets =>
    let attached :=
      existsb (fun t => String.eqb (Target.type t) "page"
                        && bool_decide (Target.tabId t = Some tabId)
                        && Target.attached t) targets in
    if negb attached then callback else Done).

(** [function onAttached(tabId)], the callback it returns. *)
Definition onAttached (tabId : Z) : task :=
  Enable tabId (AddListener tabId Done).

(** [function onPageChange(tabId, { status, url }, { url: tabUrl })] *)
Definition onPageChange (tabId : Z) (status url tabUrl : option string) : task :=
  shouldListen url (fun isVendorPortalPage =>
    if truthy isVendorPortalPage then
      runIfNotAttached tabId
        (Attach tabId debuggerVersion (onAttached tabId))
    else if bool_decide (status = Some "complete") then
      shouldListen tabUrl (fun isVendorPortalTab =>
        if negb (truthy isVendorPortalTab) then Detach tabId Done else Done)
    else Done).

(** [function onTabRemoved(tabId, _)] *)
Definition onTabRemoved (tabId : Z) : task := Detach tabId Done.

(** What the glue asks of the browser, in the order asked. *)
Inductive call : Type :=
| Fetched (target : string)
| Attached (tabId : Z) (version : string)
| Detached (tabId : Z)
| Enabled (tabId : Z)
| Listening (tabId : Z).

(** The entries of the storage area that hold plain values (the watch list
    is one; the pending requests are the [storage] of [world]), and the
    calls made so far. *)
Record chrome : Type := {
  area : gmap string value;
  calls : list call;
}.

(** What the browser answers: the parsed body of a GET, and the targets. *)
Record answers : Type := {
  fetched : string → option value;
  targets : list Target.t;
}.

Definition area_set (key : string) (v : value) (c : chrome) : chrome :=
  {| area := <[key := v]> (area c); calls := calls c |}.

Definition called (k : call) (c : chrome) : chrome :=
  {| area := area c; calls := calls c ++ [k] |}.

(** Runs a task with its callbacks to the end. *)
Fixpoint exec (a : answers) (t : task) (c : chrome) : chrome * option exception :=
  match t with
  | Done => (c, None)
  | Fail e => (c, Some e)
  | StorageGetKey key callback =>
      exec a (callback (default Undefined (area c !! key))) c
  | StorageSetKey key v next => exec a next (area_set key v c)
  | XhrGet target done => exec a (done (fetched a target)) (called (Fetched target) c)
  | GetTargets callback => exec a (callback (targets a)) c
  | Attach tabId version callback =>
      exec a callback (called (Attached tabId version) c)
  | Detach tabId next => exec a next (called (Detached tabId) c)
  | Enable tabId next => exec a next (called (Enabled tabId) c)
  | AddListener tabId next => exec a next (called (Listening tabId) c)
  end.

(** A watch list made of strings, and whether one of them occurs in [u]. *)
Definition watch_list (ws : list string) : value := Arr (Str <$> ws).

Fixpoint occurs (s u : string) : bool :=
  starts_with s u
  || match u with
     | EmptyString => false
     | String _ rest => occurs s rest
     end.

Definition watched (ws : list string) (url : option string) : bool :=
  match url with
  | Some u => negb (String.eqb u "") && existsb (fun s => occurs s u) ws
  | None => false
  end.

(** What [shouldListen] passes to its callback for a list of strings. *)
Definition verdict (ws : list string) (url : option string) : value :=
  match url with
  | Some u =>
      if String.eqb u "" then Str ""
      else Bool (existsb (fun s => occurs s u) ws)
  | None => Undefined
  end.

(** No page target of the tab has a debugger attached. *)
Definition unattached (tabId : Z) (ts : list Target.t) : bool :=
  forallb (fun t => negb (String.eqb (Target.type t) "page"
                          && bool_decide (Target.tabId t = Some tabId)
                          && Target.attached t)) ts.

(** ** A concrete exchange *)

Module Scenario.

Definition tab : Z := 1.

(** [{requestId: '7', type: 'Fetch', request: {url, method: 'GET'}}] *)
Definition request7 : Params :=
  {| requestId := "7"; timestamp := Num 100; type := Str "Fetch";
     request := Some {| url := Str "https://x/api"; method := Str "GET";
                        hasPostData := Undefined; postData := Undefined |};
     response := None |}.

(** A POST whose body the debugger left out of the message. *)
Definition post7 : Params :=
  {| requestId := "7"; timestamp := Num 100; type := Str "XHR";
     request := Some {| url := Str "https://x/api"; method := Str "POST";
                        hasPostData := Bool true; postData := Undefined |};
     response := None |}.

Definition response7 (ty : value) : Params :=
  {| requestId := "7"; timestamp := Num 101; type := ty;
     request := None; response := Some {| status := Num 200 |} |}.

(** The debugger answers [Network.getRequestPostData] with the object
    [{postData: 'a=1'}] and [Network.getResponseBody] with
    [{body: {a: 1}, base64Encoded: false}]. *)
Definition replies (tabId : Z) (command id : string) : value :=
  if String.eqb command "Network.getRequestPostData"
  then Obj [("postData", Str "a=1")]
  else Obj [("body", Obj [("a", Num 1)]); ("base64Encoded", Bool false)].

(** The page as the browser starts it ([status] is the empty string), with
    a collector that answers every event with [code]. *)
Definition page (code : Z) : host := browser replies (fun _ => code).

Definition empty : world := {| storage := ∅; posted := []; console := [] |}.

Definition pending7 : world :=
  {| storage := {[ "7" := request7 ]}; posted := []; console := [] |}.

Definition as_request (p : Params) : delivery :=
  {| debuggeeTab := Some tab; message := "Network.requestWillBeSent";
     params := p |}.

Definition as_response (p : Params) : delivery :=
  {| debuggeeTab := Some tab; message := "Network.responseReceived";
     params := p |}.

(** [{"a":1}] *)
Definition json_a1 : string :=
  String "{" (String dquote ("a" +:+ String dquote ":1}")).

(** [{"postData":"a=1"}] *)
Definition json_postData : string :=
  String "{" (String dquote ("postData" +:+ String dquote
    (":" +:+ String dquote ("a=1" +:+ String dquote "}")))).

Definition record7 : Event.t :=
  {| Event.requestId := "7"; Event.timestamp := Num 100;
     Event.type := Str "Fetch"; Event.url := Str "https://x/api";
     Event.method := Str "GET"; Event.status := Num 200;
     Event.requestBody := Str ""; Event.responseBody := Str json_a1;
     Event.responseBodyBase64Encoded := Bool false |}.

End Scenario.

(** * Properties *)

(** [tryToStringify({a: 1})] is the text [{"a":1}]. *)
Example stringify_scenario :
  tryToStringify (Obj [("a", Num 1)]) = Str Scenario.json_a1.
Proof. vm_compute. reflexivity. Qed.

(** ** The resource filter *)

Lemma indexOf_resources_Str (s : string) :
  indexOf resources (Str s)
  = if String.eqb "XHR" s then 0 else if String.eqb "Fetch" s then 1 else -1.
Proof. reflexivity. Qed.

Lemma indexOf_resources_other (v : value) :
  (∀ s, v ≠ Str s) → indexOf resources v = -1.
Proof. intros Hv. destruct v; try reflexivity. by destruct (Hv s). Qed.

Lemma truthy_Str (s : string) : truthy (Str s) = true ↔ s ≠ "".
Proof.
  simpl. destruct (String.eqb_spec s ""); simpl; split; congruence.
Qed.

(** What the filter returns on a string that is not empty. *)
Lemma importantResourceType_Str (s : string) :
  s ≠ "" →
  importantResourceType (Str s)
  = Bool (bool_decide (s = "XHR" ∨ s = "Fetch")).
Proof.
  intros Hs. unfold importantResourceType, Js.and.
  apply truthy_Str in Hs as ->. rewrite indexOf_resources_Str.
  destruct (String.eqb_spec "XHR" s) as [<-|Hx].
  { rewrite bool_decide_eq_true_2; [done | by left]. }
  destruct (String.eqb_spec "Fetch" s) as [<-|Hf].
  { rewrite bool_decide_eq_true_2; [done | by right]. }
  rewrite bool_decide_eq_false_2; [done | intros [->| ->]; congruence].
Qed.

(** A value the filter lets through is one of the two names. *)
Lemma importantResourceType_truthy (ty : value) :
  truthy (importantResourceType ty) = true ↔ ty = Str "XHR" ∨ ty = Str "Fetch".
Proof.
  split.
  - unfold importantResourceType, Js.and.
    destruct (truthy ty) eqn:Ht; [| congruence].
    destruct ty as [| | b | n | s | items | props];
      try (rewrite indexOf_resources_other by congruence; discriminate).
    rewrite indexOf_resources_Str.
    destruct (String.eqb_spec "XHR" s) as [<-|]; [by left|].
    destruct (String.eqb_spec "Fetch" s) as [<-|]; [by right|].
    discriminate.
  - by intros [-> | ->].
Qed.

(** C7, as amended.  The filter returns [true] exactly on the two names of
    the list, ['XHR'] and ['Fetch']; on every other string that is not
    empty it returns [false]; on the empty string and on an absent type it
    returns that falsy value itself, so that in a test it counts as false
    for everything but the two names.  It is a function of its argument
    alone. *)
Theorem importantResourceType_spec (ty : value) :
  (importantResourceType ty = Bool true ↔ ty = Str "XHR" ∨ ty = Str "Fetch")
  ∧ (∀ s, ty = Str s → s ≠ "" → s ≠ "XHR" → s ≠ "Fetch" →
       importantResourceType ty = Bool false)
  ∧ (ty = Str "" → importantResourceType ty = Str "")
  ∧ (ty = Undefined → importantResourceType ty = Undefined)
  ∧ (truthy (importantResourceType ty) = true
       ↔ ty = Str "XHR" ∨ ty = Str "Fetch").
Proof.
  split_and!.
  - split.
    + intros H. apply importantResourceType_truthy. by rewrite H.
    + by intros [-> | ->].
  - intros s -> Hs Hx Hf. rewrite importantResourceType_Str by done.
    rewrite bool_decide_eq_false_2; [done | by intros [? | ?]].
  - by intros ->.
  - by intros ->.
  - apply importantResourceType_truthy.
Qed.

Lemma importantResourceType_spec_witness :
  importantResourceType (Str "Image") = Bool false.
Proof.
  apply (proj1 (proj2 (importantResourceType_spec (Str "Image"))) "Image");
    [reflexivity | discriminate | discriminate | discriminate].
Defined.

(** C7, as first stated, fails: on an absent type, and on the empty string,
    the filter does not return the boolean [false]. *)
Lemma importantResourceType_absent_not_false :
  importantResourceType Undefined = Undefined
  ∧ importantResourceType Undefined ≠ Bool false
  ∧ importantResourceType (Str "") = Str ""
  ∧ importantResourceType (Str "") ≠ Bool false.
Proof. split_and!; (reflexivity || discriminate). Qed.

(** ** Body normalization *)

Lemma stringify_defined (v : value) :
  v ≠ Undefined → ∃ t, stringify v = Some t.
Proof.
  destruct v as [| | [] | n | s | items | props]; intros Hv;
    try congruence; simpl; eauto.
Qed.

Lemma JSON_stringify_Str (v : value) :
  v ≠ Undefined → ∃ t, stringify v = Some t ∧ JSON_stringify v = Str t.
Proof.
  intros Hv. destruct (stringify_defined v Hv) as [t Ht].
  exists t. unfold JSON_stringify. by rewrite Ht.
Qed.

(** The three branches of [tryToStringify]. *)
Lemma tryToStringify_falsy (v : value) :
  truthy v = false → tryToStringify v = Str "".
Proof. unfold tryToStringify. by intros ->. Qed.

Lemma tryToStringify_Str (s : string) : tryToStringify (Str s) = Str s.
Proof.
  unfold tryToStringify. simpl.
  by destruct (String.eqb_spec s "") as [-> |].
Qed.

Lemma tryToStringify_other (v : value) :
  truthy v = true → (∀ s, v ≠ Str s) →
  tryToStringify v = JSON_stringify v.
Proof.
  unfold tryToStringify. intros -> Hv. simpl.
  destruct v; try reflexivity. by destruct (Hv s).
Qed.

Lemma tryToStringify_total (v : value) : ∃ t, tryToStringify v = Str t.
Proof.
  destruct (truthy v) eqn:Ht.
  - destruct v as [| | b | n | s | items | props]; try discriminate.
    + destruct (JSON_stringify_Str (Bool b)) as (t & _ & Ht'); [done|].
      exists t. by rewrite tryToStringify_other.
    + destruct (JSON_stringify_Str (Num n)) as (t & _ & Ht'); [done|].
      exists t. by rewrite tryToStringify_other.
    + exists s. apply tryToStringify_Str.
    + destruct (JSON_stringify_Str (Arr items)) as (t & _ & Ht'); [done|].
      exists t. by rewrite tryToStringify_other.
    + destruct (JSON_stringify_Str (Obj props)) as (t & _ & Ht'); [done|].
      exists t. by rewrite tryToStringify_other.
  - exists "". by apply tryToStringify_falsy.
Qed.

(** C6, as amended.  For every value: a falsy one (absent, that is
    [undefined] or [null], and also [false], [0] and the empty string) goes
    to the empty string; a string comes back unchanged; every other value
    (an object, an array, [true], a number that is not [0]) goes to its JSON
    text, which exists; and the result is a string in every case. *)
Theorem tryToStringify_spec (v : value) :
  (truthy v = false → tryToStringify v = Str "")
  ∧ (∀ s, v = Str s → tryToStringify v = Str s)
  ∧ (truthy v = true → (∀ s, v ≠ Str s) →
       ∃ t, stringify v = Some t ∧ tryToStringify v = Str t)
  ∧ (∃ t, tryToStringify v = Str t).
Proof.
  split_and!.
  - apply tryToStringify_falsy.
  - intros s ->. apply tryToStringify_Str.
  - intros Ht Hs. rewrite tryToStringify_other by done.
    apply JSON_stringify_Str. intros ->. discriminate.
  - apply tryToStringify_total.
Qed.

Lemma tryToStringify_spec_witness :
  tryToStringify Null = Str ""
  ∧ tryToStringify (Str "a=1") = Str "a=1"
  ∧ ∃ t, stringify (Arr [Num 1; Undefined]) = Some t
         ∧ tryToStringify (Arr [Num 1; Undefined]) = Str t.
Proof.
  split_and!.
  - apply (proj1 (tryToStringify_spec Null)). reflexivity.
  - apply (proj1 (proj2 (tryToStringify_spec (Str "a=1"))) "a=1"). reflexivity.
  - apply (proj1 (proj2 (proj2 (tryToStringify_spec (Arr [Num 1; Undefined])))));
      [reflexivity | discriminate].
Defined.

(** C6, as first stated, fails: [0] and [false] are present and are no
    strings, and they go to the empty string, not to their JSON text. *)
Lemma tryToStringify_zero_not_json :
  tryToStringify (Num 0) = Str "" ∧ JSON_stringify (Num 0) = Str "0"
  ∧ tryToStringify (Bool false) = Str ""
  ∧ JSON_stringify (Bool false) = Str "false".
Proof. vm_compute. done. Qed.

(** ** The pending-request store *)

(** C8.  Removing an identifier twice leaves the store as removing it once
    does, and removing an identifier the store does not hold leaves the
    store as it is. *)
Theorem storage_remove_idempotent (key : string) (w : world) :
  storage_remove key (storage_remove key w) = storage_remove key w
  ∧ (storage w !! key = None → storage_remove key w = w).
Proof.
  destruct w as [st ps cs]. unfold storage_remove. simpl. split.
  - f_equal. apply delete_delete_eq.
  - intros Hk. f_equal. by apply delete_id.
Qed.

Lemma storage_remove_idempotent_witness :
  storage_remove "7" {| storage := ∅; posted := []; console := [] |}
  = {| storage := ∅; posted := []; console := [] |}.
Proof.
  apply (proj2 (storage_remove_idempotent "7"
                  {| storage := ∅; posted := []; console := [] |})).
  reflexivity.
Defined.

Lemma storage_remove_lookup (key : string) (w : world) :
  storage (storage_remove key w) !! key = None.
Proof. apply lookup_delete_eq. Qed.

Lemma storage_remove_lookup_ne (key key' : string) (w : world) :
  key ≠ key' →
  storage (storage_remove key w) !! key' = storage w !! key'.
Proof. intros Hne. by apply lookup_delete_ne. Qed.

(** ** Running the handlers *)

(** The test of [onRequestWillBeSent]: post data announced and left out. *)
Ltac case_marked :=
  match goal with
  | |- context [truthy (hasPostData ?rq) && negb (truthy (postData ?rq))] =>
      destruct (truthy (hasPostData rq) && negb (truthy (postData rq))) eqn:?
  end.

Lemma createEvent_built responseBody rp rq responseParams rs :
  request rp = Some rq → response responseParams = Some rs →
  ∃ event,
    createEvent responseBody (Some rp) responseParams = inr event
    ∧ Event.requestId event = requestId rp
    ∧ Event.url event = url rq
    ∧ Event.method event = method rq
    ∧ Event.status event = status rs
    ∧ Event.requestBody event = tryToStringify (postData rq)
    ∧ Event.responseBody event
      = (if truthy responseBody
         then tryToStringify (member responseBody "body") else Str "")
    ∧ Event.responseBodyBase64Encoded event
      = (if truthy responseBody
         then member responseBody "base64Encoded" else Bool false).
Proof.
  intros Hrq Hrs. unfold createEvent. rewrite Hrq, Hrs.
  eexists. split; [reflexivity|]. simpl. done.
Qed.

Section Handlers.

Context (h : host) (tabId : Z).

Lemma run_onRequestWillBeSent params rq w :
  request params = Some rq →
  run h (onRequestWillBeSent tabId params) w
  = (storage_set (requestId params) (stored_params h tabId params rq) w, None).
Proof.
  intros Hrq. unfold onRequestWillBeSent, stored_params. rewrite Hrq.
  by case_marked.
Qed.

(** With an entry in the store and a record built, the response handler
    posts the record, logs the flag of the global [status] and removes the
    entry. *)
Lemma run_onResponseReceived_found params w stored event :
  storage w !! requestId params = Some stored →
  createEvent
    (debugger_reply h tabId "Network.getResponseBody" (requestId params))
    (Some stored) params = inr event →
  run h (onResponseReceived tabId params) w
  = (storage_remove (requestId params)
       (log event (isSuccess (window_status h)) (post event w)), None).
Proof.
  intros Hst Hev. unfold onResponseReceived. simpl. rewrite Hst.
  by rewrite Hev.
Qed.

(** Without an entry the record cannot be built: the callback ends in the
    TypeError of [requestParams.requestId], before any further host call. *)
Lemma run_onResponseReceived_orphan params w :
  storage w !! requestId params = None →
  run h (onResponseReceived tabId params) w = (w, Some (TypeError "requestId")).
Proof. intros Hst. unfold onResponseReceived. simpl. by rewrite Hst. Qed.

Lemma onNetworkEvent_request params :
  truthy (importantResourceType (type params)) = true →
  onNetworkEvent tabId (Some tabId) "Network.requestWillBeSent" params
  = onRequestWillBeSent tabId params.
Proof.
  intros Hty. unfold onNetworkEvent.
  rewrite bool_decide_eq_true_2 by done. by rewrite Hty.
Qed.

Lemma onNetworkEvent_response params :
  truthy (importantResourceType (type params)) = true →
  onNetworkEvent tabId (Some tabId) "Network.responseReceived" params
  = onResponseReceived tabId params.
Proof.
  intros Hty. unfold onNetworkEvent.
  rewrite bool_decide_eq_true_2 by done. by rewrite Hty.
Qed.

Lemma onNetworkEvent_filtered debuggee message params :
  truthy (importantResourceType (type params)) = false →
  onNetworkEvent tabId debuggee message params = Return.
Proof.
  intros Hty. unfold onNetworkEvent. rewrite Hty.
  by destruct (bool_decide (debuggee = Some tabId)).
Qed.

(** An event of another tab, or of a debuggee that is no tab, is ignored. *)
Lemma onNetworkEvent_other_tab debuggee message params w :
  debuggee ≠ Some tabId →
  run h (onNetworkEvent tabId debuggee message params) w = (w, None).
Proof.
  intros Hne. unfold onNetworkEvent.
  by rewrite bool_decide_eq_false_2.
Qed.

(** A request whose type the filter does not let through is not stored. *)
Lemma filtered_request_not_stored debuggee params w :
  truthy (importantResourceType (type params)) = false →
  run h (onNetworkEvent tabId debuggee "Network.requestWillBeSent" params) w
  = (w, None).
Proof. intros Hty. by rewrite onNetworkEvent_filtered. Qed.

(** A request seen again while its entry is in the store overwrites it. *)
Lemma request_overwrites params rq w :
  request params = Some rq →
  storage (run h (onRequestWillBeSent tabId params) w).1 !! requestId params
  = Some (stored_params h tabId params rq).
Proof.
  intros Hrq. rewrite (run_onRequestWillBeSent params rq w Hrq).
  apply lookup_insert_eq.
Qed.


Lemma stored_params_request params rq :
  request params = Some rq →
  ∃ rq',
    request (stored_params h tabId params rq) = Some rq'
    ∧ url rq' = url rq ∧ method rq' = method rq
    ∧ postData rq'
      = (if truthy (hasPostData rq) && negb (truthy (postData rq))
         then debugger_reply h tabId "Network.getRequestPostData" (requestId params)
         else postData rq).
Proof.
  intros Hrq. unfold stored_params. case_marked.
  - simpl. rewrite Hrq. simpl. eauto.
  - eauto.
Qed.

(** A request event and then the response event of the same identifier,
    both let through by the filter: the request is stored, read back,
    posted as a record, logged and removed. *)
Lemma deliver_exchange w rp sp rq event :
  request rp = Some rq →
  truthy (importantResourceType (type rp)) = true →
  truthy (importantResourceType (type sp)) = true →
  requestId sp = requestId rp →
  createEvent
    (debugger_reply h tabId "Network.getResponseBody" (requestId sp))
    (Some (stored_params h tabId rp rq)) sp = inr event →
  deliver h tabId (exchange tabId rp sp) w
  = (storage_remove (requestId sp)
       (log event (isSuccess (window_status h))
          (post event
             (storage_set (requestId rp) (stored_params h tabId rp rq) w))),
     []).
Proof.
  intros Hrq Htr Hts Hid Hev.
  cbn [exchange deliver debuggeeTab message params].
  rewrite onNetworkEvent_request by done.
  rewrite (run_onRequestWillBeSent rp rq w Hrq).
  rewrite onNetworkEvent_response by done.
  rewrite (run_onResponseReceived_found sp _
             (stored_params h tabId rp rq) event); [reflexivity | | exact Hev].
  rewrite Hid. apply lookup_insert_eq.
Qed.

End Handlers.

(** The request and response of the scenario give the one record. *)
Example scenario_record :
  posted (deliver (Scenario.page 200) Scenario.tab
            [Scenario.as_request Scenario.request7;
             Scenario.as_response (Scenario.response7 (Str "Fetch"))]
            Scenario.empty).1
  = [Scenario.record7].
Proof. vm_compute. reflexivity. Qed.

(** A request for an image is not stored; its response, an image too, is
    filtered like the request, and nothing is posted or raised. *)
Example scenario_image :
  let image :=
    {| requestId := "8"; timestamp := Num 5; type := Str "Image";
       request := Some {| url := Str "https://x/logo.png"; method := Str "GET";
                          hasPostData := Undefined; postData := Undefined |};
       response := None |} in
  let loaded :=
    {| requestId := "8"; timestamp := Num 6; type := Str "Image";
       request := None; response := Some {| status := Num 200 |} |} in
  deliver (Scenario.page 200) Scenario.tab
    [Scenario.as_request image; Scenario.as_response loaded] Scenario.empty
  = (Scenario.empty, []).
Proof. vm_compute. reflexivity. Qed.

(** ** Dispatch and the pending entry *)

(** Both flags can reach the callback: the global [status] decides. *)
Lemma isSuccess_values :
  isSuccess "" = Bool false ∧ isSuccess "200" = Bool true
  ∧ isSuccess "404" = Bool false.
Proof. vm_compute. done. Qed.


(** C1, as amended.  When the record of an identifier is handed to the
    dispatcher and the dispatch is done, the entry of that identifier is
    removed from the store whatever flag the callback receives and whatever
    the transport answered: the record is posted once, the flag is logged,
    and the store is the old one without the identifier. *)
Theorem dispatch_removes_entry h tabId params w stored rq rs :
  storage w !! requestId params = Some stored →
  request stored = Some rq →
  response params = Some rs →
  ∃ event w',
    createEvent
      (debugger_reply h tabId "Network.getResponseBody" (requestId params))
      (Some stored) params = inr event
    ∧ run h (onResponseReceived tabId params) w = (w', None)
    ∧ posted w' = (posted w ++ [event])%list
    ∧ console w' = (console w ++ [(event, isSuccess (window_status h))])%list
    ∧ storage w' = delete (requestId params) (storage w)
    ∧ storage w' !! requestId params = None.
Proof.
  intros Hst Hrq Hrs.
  destruct (createEvent_built
              (debugger_reply h tabId "Network.getResponseBody" (requestId params))
              stored rq params rs Hrq Hrs) as (event & Hev & _).
  exists event. eexists. split; [exact Hev|].
  split; [by apply run_onResponseReceived_found with (stored := stored)|].
  simpl. split_and!; try reflexivity. apply lookup_delete_eq.
Qed.

(** With the global [status] at ['200'] the callback receives [true], with
    the empty string it receives [false]; the entry goes in both cases. *)
Lemma dispatch_removes_entry_witness :
  (∃ event w',
     run {| debugger_reply := Scenario.replies; xhr_status := fun _ => 500;
            window_status := "200" |}
       (onResponseReceived 1 (Scenario.response7 (Str "Fetch")))
       Scenario.pending7 = (w', None)
     ∧ console w' = [(event, Bool true)]
     ∧ storage w' !! "7" = None)
  ∧ (∃ event w',
       run (Scenario.page 500)
         (onResponseReceived 1 (Scenario.response7 (Str "Fetch")))
         Scenario.pending7 = (w', None)
       ∧ console w' = [(event, Bool false)]
       ∧ storage w' !! "7" = None).
Proof.
  split.
  - destruct (dispatch_removes_entry
                {| debugger_reply := Scenario.replies; xhr_status := fun _ => 500;
                   window_status := "200" |}
                1 (Scenario.response7 (Str "Fetch")) Scenario.pending7
                Scenario.request7
                {| url := Str "https://x/api"; method := Str "GET";
                   hasPostData := Undefined; postData := Undefined |}
                {| status := Num 200 |} eq_refl eq_refl eq_refl)
      as (event & w' & _ & Hrun & _ & Hlog & _ & Hgone).
    exists event, w'. split; [exact Hrun|]. split; [exact Hlog | exact Hgone].
  - destruct (dispatch_removes_entry (Scenario.page 500)
                1 (Scenario.response7 (Str "Fetch")) Scenario.pending7
                Scenario.request7
                {| url := Str "https://x/api"; method := Str "GET";
                   hasPostData := Undefined; postData := Undefined |}
                {| status := Num 200 |} eq_refl eq_refl eq_refl)
      as (event & w' & _ & Hrun & _ & Hlog & _ & Hgone).
    exists event, w'. split; [exact Hrun|]. split; [exact Hlog | exact Hgone].
Defined.

(** C1, as first stated, fails: the collector answers 500, the callback
    receives [false], and the entry that was in the store is gone. *)
Lemma failed_dispatch_removes_entry :
  let w' := (run (Scenario.page 500)
               (onResponseReceived 1 (Scenario.response7 (Str "Fetch")))
               Scenario.pending7).1 in
  storage Scenario.pending7 !! "7" = Some Scenario.request7
  ∧ posted w' = [Scenario.record7]
  ∧ console w' = [(Scenario.record7, Bool false)]
  ∧ storage w' !! "7" = None.
Proof. vm_compute. done. Qed.

(** ** A response without a stored request *)

(** C2 on the code.  A response whose identifier has no entry in the store
    produces no record and leaves the store as it was, and the callback
    that was to build the record ends in a TypeError: [createEvent] reads
    [requestParams.requestId] of [undefined]. *)
Theorem orphan_response_raises h tabId params w :
  storage w !! requestId params = None →
  createEvent
    (debugger_reply h tabId "Network.getResponseBody" (requestId params))
    None params = inl (TypeError "requestId")
  ∧ run h (onResponseReceived tabId params) w
    = (w, Some (TypeError "requestId")).
Proof.
  intros Hst. split; [reflexivity|]. by apply run_onResponseReceived_orphan.
Qed.

Lemma orphan_response_raises_witness :
  deliver (Scenario.page 200) Scenario.tab
    [Scenario.as_response (Scenario.response7 (Str "Fetch"))] Scenario.empty
  = (Scenario.empty, [TypeError "requestId"]).
Proof.
  cbn [deliver Scenario.as_response debuggeeTab message params].
  rewrite onNetworkEvent_response by reflexivity.
  rewrite (proj2 (orphan_response_raises (Scenario.page 200) Scenario.tab
                    (Scenario.response7 (Str "Fetch")) Scenario.empty eq_refl)).
  reflexivity.
Defined.

(** ** One request, one response, one record *)



(** ** Post data left out of the request event *)

(** A request that is not marked (no [hasPostData], or the post data is in
    the message) is stored as it came, and no command is sent. *)
Lemma unmarked_request_stored_unchanged h tabId params rq w :
  request params = Some rq →
  truthy (hasPostData rq) && negb (truthy (postData rq)) = false →
  onRequestWillBeSent tabId params
  = StorageSet (requestId params) params Return
  ∧ run h (onRequestWillBeSent tabId params) w
    = (storage_set (requestId params) params w, None).
Proof.
  intros Hrq Hm. unfold onRequestWillBeSent. rewrite Hrq, Hm. done.
Qed.

(** A marked request sends [Network.getRequestPostData] for its identifier
    and stores the parameters with the whole reply as post data. *)
Lemma marked_request_fetches h tabId params rq w :
  request params = Some rq →
  truthy (hasPostData rq) && negb (truthy (postData rq)) = true →
  onRequestWillBeSent tabId params
  = SendCommand tabId "Network.getRequestPostData" (requestId params)
      (fun data =>
         StorageSet (requestId params) (set_postData data params) Return)
  ∧ run h (onRequestWillBeSent tabId params) w
    = (storage_set (requestId params)
         (set_postData
            (debugger_reply h tabId "Network.getRequestPostData" (requestId params))
            params) w, None).
Proof.
  intros Hrq Hm. unfold onRequestWillBeSent. rewrite Hrq, Hm. done.
Qed.


(** C4 on the code.  The debugger answers [Network.getRequestPostData]
    with the object [{postData: 'a=1'}]; the callback stores that object as
    the post data, and the request body of the record is the JSON text of
    the object, not the text ['a=1'] it holds. *)
Theorem fetched_post_data_is_wrapped :
  let w' := (deliver (Scenario.page 200) Scenario.tab
               [Scenario.as_request Scenario.post7;
                Scenario.as_response (Scenario.response7 (Str "XHR"))]
               Scenario.empty).1 in
  ∃ event,
    posted w' = [event]
    ∧ debugger_reply (Scenario.page 200) Scenario.tab
        "Network.getRequestPostData" "7" = Obj [("postData", Str "a=1")]
    ∧ Event.requestBody event = Str Scenario.json_postData
    ∧ Event.requestBody event ≠ Str "a=1".
Proof.
  eexists. split_and!; [vm_compute; reflexivity | reflexivity | reflexivity |].
  discriminate.
Qed.

(** ** A response body that cannot be fetched *)

(** C5.  When [Network.getResponseBody] yields no value, the record is
    still built and posted, with the empty string as response body and
    [false] as its binary flag. *)
Theorem response_body_fetch_failed h tabId params w stored rq rs :
  storage w !! requestId params = Some stored →
  request stored = Some rq →
  response params = Some rs →
  debugger_reply h tabId "Network.getResponseBody" (requestId params)
    = Undefined →
  ∃ event w',
    run h (onResponseReceived tabId params) w = (w', None)
    ∧ posted w' = (posted w ++ [event])%list
    ∧ Event.responseBody event = Str ""
    ∧ Event.responseBodyBase64Encoded event = Bool false.
Proof.
  intros Hst Hrq Hrs Hreply.
  destruct (createEvent_built
              (debugger_reply h tabId "Network.getResponseBody" (requestId params))
              stored rq params rs Hrq Hrs)
    as (event & Hev & _ & _ & _ & _ & _ & Hbody & Hflag).
  rewrite Hreply in Hbody, Hflag. simpl in Hbody, Hflag.
  exists event. eexists. split_and!; [| | exact Hbody | exact Hflag].
  - by apply run_onResponseReceived_found with (stored := stored).
  - reflexivity.
Qed.

Lemma response_body_fetch_failed_witness :
  ∃ event w',
    run (browser (fun _ _ _ => Undefined) (fun _ => 200))
      (onResponseReceived 1 (Scenario.response7 (Str "Fetch")))
      Scenario.pending7 = (w', None)
    ∧ posted w' = ([] ++ [event])%list
    ∧ Event.responseBody event = Str ""
    ∧ Event.responseBodyBase64Encoded event = Bool false.
Proof.
  exact (response_body_fetch_failed
           (browser (fun _ _ _ => Undefined) (fun _ => 200)) 1
           (Scenario.response7 (Str "Fetch")) Scenario.pending7
           Scenario.request7
           {| url := Str "https://x/api"; method := Str "GET";
              hasPostData := Undefined; postData := Undefined |}
           {| status := Num 200 |} eq_refl eq_refl eq_refl eq_refl).
Defined.

(** ** The flag of the dispatcher *)





(** The flag on strings of every numeric form; the double nearest to the
    literal is what is compared. *)
Example isSuccess_forms :
  isSuccess "2e2" = Bool true ∧ isSuccess "0x12C" = Bool true
  ∧ isSuccess "299.5" = Bool true ∧ isSuccess " 200.0 " = Bool true
  ∧ isSuccess "199.99999999999999999999" = Bool true
  ∧ isSuccess "399.99999999999999999999" = Bool false
  ∧ isSuccess "4e2" = Bool false ∧ isSuccess "Infinity" = Bool false
  ∧ isSuccess "2xx" = Bool false.
Proof. vm_compute. done. Qed.

(** ** The filter on response events *)

(** C10.  A response event whose type is absent or not one of the two
    names is ignored before the store is read, also when the store holds a
    request under its identifier: the world is as before, so no record is
    posted and no entry is removed. *)
Theorem filtered_response_ignored h tabId debuggee params w :
  type params ≠ Str "XHR" →
  type params ≠ Str "Fetch" →
  let after :=
    run h (onNetworkEvent tabId debuggee "Network.responseReceived" params) w in
  after = (w, None)
  ∧ posted after.1 = posted w
  ∧ storage after.1 !! requestId params = storage w !! requestId params.
Proof.
  intros Hx Hf. cbv zeta.
  rewrite onNetworkEvent_filtered; [done|].
  destruct (truthy (importantResourceType (type params))) eqn:Ht; [|done].
  apply importantResourceType_truthy in Ht as [? | ?]; congruence.
Qed.

Lemma filtered_response_ignored_witness :
  run (Scenario.page 200)
    (onNetworkEvent 1 (Some 1) "Network.responseReceived"
       (Scenario.response7 Undefined)) Scenario.pending7
  = (Scenario.pending7, None).
Proof.
  apply (proj1 (filtered_response_ignored (Scenario.page 200) 1 (Some 1)
                  (Scenario.response7 Undefined) Scenario.pending7
                  ltac:(discriminate) ltac:(discriminate))).
Defined.

(** * Further properties of the listener *)

(** ** What one event does *)

(** The response handler in one equation: the record is built or the
    callback ends in its error. *)
Lemma run_onResponseReceived h tabId params w :
  run h (onResponseReceived tabId params) w
  = match createEvent
            (debugger_reply h tabId "Network.getResponseBody" (requestId params))
            (storage w !! requestId params) params with
    | inl e => (w, Some e)
    | inr event =>
        (storage_remove (requestId params)
           (log event (isSuccess (window_status h)) (post event w)), None)
    end.
Proof.
  unfold onResponseReceived. cbn [run].
  by destruct (createEvent _ (storage w !! requestId params) params).
Qed.

(** The three things the listener can do with an event. *)
Lemma onNetworkEvent_cases tabId debuggee message params :
  onNetworkEvent tabId debuggee message params = Return
  ∨ (message = "Network.requestWillBeSent"
     ∧ onNetworkEvent tabId debuggee message params
       = onRequestWillBeSent tabId params)
  ∨ (message = "Network.responseReceived"
     ∧ onNetworkEvent tabId debuggee message params
       = onResponseReceived tabId params).
Proof.
  unfold onNetworkEvent.
  destruct (bool_decide (debuggee = Some tabId)); [|by left].
  destruct (truthy (importantResourceType (type params))); [|by left].
  cbn [negb].
  destruct (String.eqb_spec message "Network.requestWillBeSent") as [->|];
    [right; by left|].
  destruct (String.eqb_spec message "Network.responseReceived") as [->|];
    [right; by right|].
  by left.
Qed.

Lemma run_onRequestWillBeSent_cases h tabId params w :
  (run h (onRequestWillBeSent tabId params) w = (w, Some (TypeError "hasPostData")))
  ∨ ∃ stored,
      run h (onRequestWillBeSent tabId params) w
      = (storage_set (requestId params) stored w, None).
Proof.
  unfold onRequestWillBeSent. destruct (request params) as [rq|]; [|by left].
  right. case_marked; cbn [run]; eauto.
Qed.

(** What one event leaves behind: the store differs at most under the
    identifier of the event; the event posts nothing, or it is a response
    and posts one record, logged with the flag of the page, without an
    exception; an exception leaves the world as it was. *)
Lemma run_onNetworkEvent_outcome h tabId debuggee message params w :
  let '(w', e) := run h (onNetworkEvent tabId debuggee message params) w in
  (∀ key, key ≠ requestId params → storage w' !! key = storage w !! key)
  ∧ ((posted w' = posted w ∧ console w' = console w)
     ∨ (message = "Network.responseReceived" ∧ e = None
        ∧ ∃ event, posted w' = (posted w ++ [event])%list
                   ∧ console w'
                     = (console w ++ [(event, isSuccess (window_status h))])%list))
  ∧ (e ≠ None → w' = w).
Proof.
  destruct (onNetworkEvent_cases tabId debuggee message params)
    as [-> | [[-> ->] | [-> ->]]].
  - cbn [run]. split_and!; [done | by left | done].
  - destruct (run_onRequestWillBeSent_cases h tabId params w)
      as [-> | [stored ->]].
    + split_and!; [done | by left | done].
    + split_and!; [| by left | done].
      intros key Hne. cbn. by rewrite lookup_insert_ne.
  - rewrite run_onResponseReceived.
    destruct (createEvent _ (storage w !! requestId params) params)
      as [err | event].
    + split_and!; [done | by left | done].
    + split_and!; [| right | done].
      * intros key Hne. cbn. by rewrite lookup_delete_ne.
      * split_and!; [done | done |]. by exists event.
Qed.

(** ** What a sequence of events does *)

Lemma deliver_cons h tabId d events w :
  deliver h tabId (d :: events) w
  = let '(w1, e) :=
      run h (onNetworkEvent tabId (debuggeeTab d) (message d) (params d)) w in
    let '(w2, es) := deliver h tabId events w1 in
    (w2, (option_list e ++ es)%list).
Proof. reflexivity. Qed.

Lemma deliver_app h tabId events1 events2 w :
  deliver h tabId (events1 ++ events2) w
  = let '(w1, es1) := deliver h tabId events1 w in
    let '(w2, es2) := deliver h tabId events2 w1 in
    (w2, (es1 ++ es2)%list).
Proof.
  revert w. induction events1 as [|d events1 IH]; intros w.
  - cbn. by destruct (deliver h tabId events2 w).
  - rewrite <- app_comm_cons, !deliver_cons.
    destruct (run h _ w) as [w1 e]. rewrite IH.
    destruct (deliver h tabId events1 w1) as [w2 es1].
    destruct (deliver h tabId events2 w2) as [w3 es2].
    by rewrite app_assoc.
Qed.

(** X1.  The entry of an identifier is touched only by the events of that
    identifier.  Whatever events the listener takes, and whatever the host
    answers, an entry is neither removed nor changed, and none appears, as
    long as no event carries its identifier; in particular a stored request
    whose response never comes stays in the store. *)
Theorem entry_kept_by_other_identifiers h tabId events w key :
  (∀ d, d ∈ events → requestId (params d) ≠ key) →
  storage (deliver h tabId events w).1 !! key = storage w !! key.
Proof.
  revert w. induction events as [|d events IH]; intros w Hids; [done|].
  rewrite deliver_cons.
  pose proof (run_onNetworkEvent_outcome h tabId (debuggeeTab d) (message d)
                (params d) w) as Hd.
  destruct (run h _ w) as [w1 e]. destruct Hd as (Hframe & _ & _).
  specialize (IH w1). destruct (deliver h tabId events w1) as [w2 es].
  cbn in *. rewrite IH.
  - apply Hframe. intros Heq. apply (Hids d); [by left | done].
  - intros d' Hd'. apply Hids. by right.
Qed.

Lemma entry_kept_by_other_identifiers_witness :
  storage (deliver (Scenario.page 200) 1
             [Scenario.as_response
                {| requestId := "8"; timestamp := Num 6; type := Str "XHR";
                   request := None; response := Some {| status := Num 200 |} |}]
             Scenario.pending7).1 !! "7"
  = storage Scenario.pending7 !! "7".
Proof.
  apply (entry_kept_by_other_identifiers (Scenario.page 200) 1).
  intros d Hd. apply list_elem_of_singleton in Hd as ->. discriminate.
Defined.

(** The records a sequence of events posts: they are appended to those
    posted before, each is logged once with the flag of the page, there
    are no more of them than response events, and no more records and
    exceptions together than events. *)
Lemma deliver_outcome h tabId events w :
  let '(w', es) := deliver h tabId events w in
  ∃ new,
    posted w' = (posted w ++ new)%list
    ∧ console w'
      = (console w ++ ((fun e => (e, isSuccess (window_status h))) <$> new))%list
    ∧ (length new ≤ responses events)%nat
    ∧ (length new + length es ≤ length events)%nat.
Proof.
  revert w. induction events as [|d events IH]; intros w.
  - exists []. cbn. by rewrite !app_nil_r.
  - rewrite deliver_cons.
    pose proof (run_onNetworkEvent_outcome h tabId (debuggeeTab d) (message d)
                  (params d) w) as Hd.
    destruct (run h _ w) as [w1 e]. destruct Hd as (_ & Hpost & Hexn).
    specialize (IH w1). destruct (deliver h tabId events w1) as [w2 es].
    destruct IH as (new & Hp & Hc & Hn & Hl).
    unfold responses in *. rewrite filter_cons.
    destruct Hpost as [[Hp1 Hc1] | (Hm & -> & event & Hp1 & Hc1)].
    + exists new. rewrite Hp, Hc, Hp1, Hc1. split_and!; [done | done | |].
      * case_decide; cbn; lia.
      * destruct e; cbn; lia.
    + exists (event :: new). rewrite Hp, Hc, Hp1, Hc1.
      rewrite decide_True by done.
      split_and!; cbn; [by rewrite <- app_assoc | by rewrite <- app_assoc | lia | lia].
Qed.

(** X2.  Records are only ever appended, one per response event at most.
    Whatever events the listener takes, the records posted before stay
    first and in order, the new ones are no more than the response events
    taken, and records and exceptions together are no more than the
    events: an event yields a record, an exception, or nothing. *)
Theorem records_only_appended h tabId events w :
  ∃ new,
    posted (deliver h tabId events w).1 = (posted w ++ new)%list
    ∧ (length new ≤ responses events)%nat
    ∧ (length new + length (deliver h tabId events w).2 ≤ length events)%nat.
Proof.
  pose proof (deliver_outcome h tabId events w) as H.
  destruct (deliver h tabId events w) as [w' es].
  destruct H as (new & Hp & _ & Hn & Hl). by exists new.
Qed.



Lemma onNetworkEvent_ignored tabId d :
  ignored tabId d →
  onNetworkEvent tabId (debuggeeTab d) (message d) (params d) = Return.
Proof.
  intros [Htab | [[Hx Hf] | [Hq Hs]]]; unfold onNetworkEvent.
  - by rewrite bool_decide_eq_false_2.
  - destruct (bool_decide _); [|done]. cbn [negb].
    destruct (truthy (importantResourceType (type (params d)))) eqn:Ht; [|done].
    apply importantResourceType_truthy in Ht as [? | ?]; congruence.
  - destruct (bool_decide _); [|done].
    destruct (truthy _); [|done]. cbn [negb].
    destruct (String.eqb_spec (message d) "Network.requestWillBeSent"); [done|].
    by destruct (String.eqb_spec (message d) "Network.responseReceived").
Qed.

(** X4.  Events that are not the listener's change nothing.  A sequence of
    events each of which belongs to another tab, has a type other than
    ['XHR'] and ['Fetch'] (none included), or is a message other than the
    request and the response message, leaves the world as it is and raises
    nothing, whatever is in the store. *)
Theorem ignored_events_change_nothing h tabId events w :
  (∀ d, d ∈ events → ignored tabId d) →
  deliver h tabId events w = (w, []).
Proof.
  revert w. induction events as [|d events IH]; intros w Hall; [done|].
  rewrite deliver_cons, onNetworkEvent_ignored by (apply Hall; by left).
  cbn [run]. rewrite IH; [done|]. intros d' Hd'. apply Hall. by right.
Qed.

Lemma ignored_events_change_nothing_witness :
  deliver (Scenario.page 200) 1
    [ {| debuggeeTab := Some 2; message := "Network.responseReceived";
         params := Scenario.response7 (Str "XHR") |};
      {| debuggeeTab := Some 1; message := "Network.loadingFinished";
         params := Scenario.response7 (Str "XHR") |};
      {| debuggeeTab := Some 1; message := "Network.responseReceived";
         params := Scenario.response7 (Str "Image") |} ]
    Scenario.pending7
  = (Scenario.pending7, []).
Proof.
  apply (ignored_events_change_nothing (Scenario.page 200) 1).
  intros d Hd. repeat (apply elem_of_cons in Hd as [-> | Hd]).
  - left. discriminate.
  - right. right. split; discriminate.
  - right. left. split; discriminate.
  - by apply elem_of_nil in Hd.
Defined.

(** ** Whole exchanges *)

(** An exchange whose two events are well formed and pass the filter
    builds its record from the stored request and ends without an entry
    and without an exception. *)
Lemma exchange_runs h tabId w rp sp rq rs :
  request rp = Some rq →
  response sp = Some rs →
  truthy (importantResourceType (type rp)) = true →
  truthy (importantResourceType (type sp)) = true →
  requestId sp = requestId rp →
  ∃ event,
    createEvent
      (debugger_reply h tabId "Network.getResponseBody" (requestId sp))
      (Some (stored_params h tabId rp rq)) sp = inr event
    ∧ deliver h tabId (exchange tabId rp sp) w
      = ({| storage := delete (requestId rp) (storage w);
            posted := posted w ++ [event];
            console := console w ++ [(event, isSuccess (window_status h))] |},
         []).
Proof.
  intros Hrq Hrs Htr Hts Hid.
  destruct (stored_params_request h tabId rp rq Hrq) as (rq' & Hrq' & _).
  destruct (createEvent_built
              (debugger_reply h tabId "Network.getResponseBody" (requestId sp))
              (stored_params h tabId rp rq) rq' sp rs Hrq' Hrs)
    as (event & Hev & _).
  exists event. split; [exact Hev|].
  rewrite (deliver_exchange h tabId w rp sp rq event) by done.
  unfold storage_remove, log, post, storage_set. cbn.
  by rewrite Hid, delete_insert_eq.
Qed.



(** X6.  A response is used once.  When the response event of an exchange
    is delivered a second time, the first one has posted the record and
    removed the entry, and the second one posts nothing and ends in the
    TypeError of a response without a stored request. *)
Theorem second_response_is_orphan h tabId w rp sp sp' rq rs :
  request rp = Some rq →
  response sp = Some rs →
  truthy (importantResourceType (type rp)) = true →
  truthy (importantResourceType (type sp)) = true →
  truthy (importantResourceType (type sp')) = true →
  requestId sp = requestId rp →
  requestId sp' = requestId rp →
  ∃ event,
    deliver h tabId
      (exchange tabId rp sp
       ++ [ {| debuggeeTab := Some tabId;
               message := "Network.responseReceived"; params := sp' |} ]) w
    = ({| storage := delete (requestId rp) (storage w);
          posted := posted w ++ [event];
          console := console w ++ [(event, isSuccess (window_status h))] |},
       [TypeError "requestId"]).
Proof.
  intros Hrq Hrs Htr Hts Hts' Hid Hid'.
  destruct (exchange_runs h tabId w rp sp rq rs) as (event & _ & Hex); try done.
  exists event. rewrite deliver_app, Hex.
  cbn [deliver debuggeeTab message params].
  rewrite onNetworkEvent_response by done.
  rewrite run_onResponseReceived_orphan; [done|].
  cbn. rewrite Hid'. apply lookup_delete_eq.
Qed.

Lemma second_response_is_orphan_witness :
  ∃ event,
    deliver (Scenario.page 200) 1
      (exchange 1 Scenario.request7 (Scenario.response7 (Str "Fetch"))
       ++ [ {| debuggeeTab := Some 1; message := "Network.responseReceived";
               params := Scenario.response7 (Str "XHR") |} ]) Scenario.empty
    = ({| storage := delete "7" ∅;
          posted := [] ++ [event];
          console := [] ++ [(event, isSuccess "")] |},
       [TypeError "requestId"]).
Proof.
  exact (second_response_is_orphan (Scenario.page 200) 1 Scenario.empty
           Scenario.request7 (Scenario.response7 (Str "Fetch"))
           (Scenario.response7 (Str "XHR"))
           {| url := Str "https://x/api"; method := Str "GET";
              hasPostData := Undefined; postData := Undefined |}
           {| status := Num 200 |}
           eq_refl eq_refl eq_refl eq_refl eq_refl eq_refl eq_refl).
Defined.



(** ** The bodies of the record *)

(** X8.  Bodies that come as strings reach the record unchanged.  When the
    request event carries its post data as a string that is not empty, and
    the debugger answers [Network.getResponseBody] with
    [{body, base64Encoded}] where [body] is a string, the record has that
    post data as request body, that body as response body, and the flag
    of the answer. *)
Theorem string_bodies_unchanged h tabId w rp sp rq rs data body flag :
  request rp = Some rq →
  response sp = Some rs →
  truthy (importantResourceType (type rp)) = true →
  truthy (importantResourceType (type sp)) = true →
  requestId sp = requestId rp →
  postData rq = Str data → data ≠ "" →
  debugger_reply h tabId "Network.getResponseBody" (requestId rp)
  = Obj [("body", Str body); ("base64Encoded", Bool flag)] →
  ∃ event,
    posted (deliver h tabId (exchange tabId rp sp) w).1
    = (posted w ++ [event])%list
    ∧ Event.requestBody event = Str data
    ∧ Event.responseBody event = Str body
    ∧ Event.responseBodyBase64Encoded event = Bool flag.
Proof.
  intros Hrq Hrs Htr Hts Hid Hdata Hne Hreply.
  destruct (stored_params_request h tabId rp rq Hrq)
    as (rq' & Hrq' & _ & _ & Hpd).
  assert (truthy (postData rq) = true) as Ht
    by (rewrite Hdata; by apply truthy_Str).
  rewrite Ht, andb_false_r in Hpd.
  destruct (createEvent_built
              (debugger_reply h tabId "Network.getResponseBody" (requestId sp))
              (stored_params h tabId rp rq) rq' sp rs Hrq' Hrs)
    as (event & Hev & _ & _ & _ & _ & Hq & Hb & Hf).
  exists event.
  rewrite (deliver_exchange h tabId w rp sp rq event) by done.
  rewrite Hid, Hreply in Hb, Hf. cbn in Hb, Hf.
  split_and!; [done | | by rewrite Hb, tryToStringify_Str | done].
  by rewrite Hq, Hpd, Hdata, tryToStringify_Str.
Qed.

Lemma string_bodies_unchanged_witness :
  ∃ event,
    posted (deliver
              (browser (fun _ _ _ =>
                          Obj [("body", Str "ok"); ("base64Encoded", Bool true)])
                 (fun _ => 200)) 1
              (exchange 1
                 {| requestId := "7"; timestamp := Num 100; type := Str "XHR";
                    request :=
                      Some {| url := Str "https://x/api"; method := Str "POST";
                              hasPostData := Bool true; postData := Str "a=1" |};
                    response := None |}
                 (Scenario.response7 (Str "XHR")))
              Scenario.empty).1
    = ([] ++ [event])%list
    ∧ Event.requestBody event = Str "a=1"
    ∧ Event.responseBody event = Str "ok"
    ∧ Event.responseBodyBase64Encoded event = Bool true.
Proof.
  apply (string_bodies_unchanged
           (browser (fun _ _ _ =>
                       Obj [("body", Str "ok"); ("base64Encoded", Bool true)])
              (fun _ => 200)) 1 Scenario.empty _ _
           {| url := Str "https://x/api"; method := Str "POST";
              hasPostData := Bool true; postData := Str "a=1" |}
           {| status := Num 200 |} "a=1" "ok" true);
    (reflexivity || discriminate).
Defined.



(** X10.  Normalizing a body twice is normalizing it once: the result of
    [tryToStringify] is a string, and a string is a fixed point. *)
Theorem tryToStringify_idempotent (v : value) :
  tryToStringify (tryToStringify v) = tryToStringify v.
Proof.
  destruct (tryToStringify_total v) as [t ->]. apply tryToStringify_Str.
Qed.

(** * Properties of the attaching glue *)

(** ** Occurrence of one string in another *)

Lemma starts_with_spec (s u : string) :
  starts_with s u = true ↔ ∃ t, u = s +:+ t.
Proof.
  revert u. induction s as [|a s IH]; intros u; cbn.
  - split; [intros _; by exists u | done].
  - destruct u as [|b u].
    + split; [done | intros [t Ht]; discriminate].
    + rewrite andb_true_iff, bool_decide_eq_true, IH. split.
      * intros [-> [t ->]]. by exists t.
      * intros [t Ht]. injection Ht as -> ->. split; [done | by exists t].
Qed.

Lemma occurs_spec (s u : string) :
  occurs s u = true ↔ ∃ pre post, u = pre +:+ s +:+ post.
Proof.
  induction u as [|b u IH].
  - cbn [occurs]. rewrite orb_false_r, starts_with_spec. split.
    + intros [t Ht]. by exists "", t.
    + intros (pre & post & H). destruct pre; [by exists post|discriminate].
  - cbn [occurs]. rewrite orb_true_iff, starts_with_spec, IH. split.
    + intros [[t Ht] | (pre & post & ->)].
      * by exists "", t.
      * by exists (String b pre), post.
    + intros (pre & post & H). destruct pre as [|a pre].
      * left. by exists post.
      * right. injection H as -> ->. by exists pre, post.
Qed.

(** [u.indexOf(s) > -1] says that [s] occurs in [u]. *)
Lemma String_indexOf_from_occurs (i : Z) (u s : string) :
  0 ≤ i → (-1 <? String_indexOf_from i u s) = occurs s u.
Proof.
  revert i. induction u as [|b u IH]; intros i Hi; cbn [String_indexOf_from occurs].
  - destruct (starts_with s ""); cbn; [apply Z.ltb_lt; lia | done].
  - destruct (starts_with s (String b u)); cbn; [apply Z.ltb_lt; lia |].
    apply IH. lia.
Qed.

Lemma some_watch_list (ws : list string) (p : value → bool) :
  some (watch_list ws) p = inr (existsb (fun s => p (Str s)) ws).
Proof.
  unfold some, watch_list. f_equal.
  induction ws as [|s ws IH]; [done|]. cbn. by rewrite IH.
Qed.

Lemma watched_spec (ws : list string) (url : option string) :
  watched ws url = true
  ↔ ∃ u s pre post,
      url = Some u ∧ u ≠ "" ∧ s ∈ ws ∧ u = pre +:+ s +:+ post.
Proof.
  destruct url as [u|]; cbn [watched].
  - rewrite andb_true_iff, negb_true_iff, existsb_exists. split.
    + intros [Hu (s & Hs & Hocc)].
      apply occurs_spec in Hocc as (pre & post & Hsplit).
      exists u, s, pre, post. split_and!; [done | | by apply list_elem_of_In | done].
      intros ->. by rewrite String.eqb_refl in Hu.
    + intros (u' & s & pre & post & Hu' & Hne & Hs & Hsplit).
      injection Hu' as <-. split.
      * by apply String.eqb_neq.
      * exists s. split; [by apply list_elem_of_In|].
        apply occurs_spec. by exists pre, post.
  - split; [done | intros (? & ? & ? & ? & ? & _); discriminate].
Qed.

(** ** The watch list *)

Lemma exec_getPortalUrls_cached a callback c v :
  area c !! domainsStorageKey = Some v → truthy v = true →
  exec a (getPortalUrls callback) c = exec a (callback v) c.
Proof. intros Hv Ht. unfold getPortalUrls. cbn [exec]. by rewrite Hv; cbn; rewrite Ht. Qed.

Lemma exec_getPortalUrls_fetched a callback c :
  truthy (default Undefined (area c !! domainsStorageKey)) = false →
  exec a (getPortalUrls callback) c
  = match fetched a (baseUrl +:+ "/domains") with
    | Some urls =>
        exec a (callback urls)
          (area_set domainsStorageKey urls
             (called (Fetched (baseUrl +:+ "/domains")) c))
    | None => (called (Fetched (baseUrl +:+ "/domains")) c, Some SyntaxErr)
    end.
Proof.
  intros Ht. unfold getPortalUrls. cbn [exec]. rewrite Ht. cbn [exec].
  by destruct (fetched a (baseUrl +:+ "/domains")).
Qed.

(** X11.  The watch list is fetched once.  When the storage area holds no
    list, the server is asked, and an answer that parses to a truthy value
    (any array, the empty one included) is stored; from then on every call
    of [getPortalUrls], whatever the server would answer, passes that
    value to its callback without a request. *)
Theorem watch_list_fetched_once a c urls :
  truthy (default Undefined (area c !! domainsStorageKey)) = false →
  fetched a (baseUrl +:+ "/domains") = Some urls →
  truthy urls = true →
  ∃ c1,
    exec a (getPortalUrls (fun _ => Done)) c = (c1, None)
    ∧ calls c1 = (calls c ++ [Fetched (baseUrl +:+ "/domains")])%list
    ∧ area c1 !! domainsStorageKey = Some urls
    ∧ ∀ a' callback,
        exec a' (getPortalUrls callback) c1 = exec a' (callback urls) c1.
Proof.
  intros Hmiss Hans Ht. eexists. split_and!.
  - rewrite exec_getPortalUrls_fetched by done. rewrite Hans. reflexivity.
  - reflexivity.
  - apply lookup_insert_eq.
  - intros a' callback. apply exec_getPortalUrls_cached; [|done].
    apply lookup_insert_eq.
Qed.

Lemma watch_list_fetched_once_witness :
  ∃ c1,
    exec {| fetched := fun _ => Some (watch_list ["portal.example"]);
            targets := [] |}
      (getPortalUrls (fun _ => Done)) {| area := ∅; calls := [] |} = (c1, None)
    ∧ calls c1 = ([] ++ [Fetched (baseUrl +:+ "/domains")])%list
    ∧ area c1 !! domainsStorageKey = Some (watch_list ["portal.example"])
    ∧ ∀ a' callback,
        exec a' (getPortalUrls callback) c1
        = exec a' (callback (watch_list ["portal.example"])) c1.
Proof.
  exact (watch_list_fetched_once
           {| fetched := fun _ => Some (watch_list ["portal.example"]);
              targets := [] |}
           {| area := ∅; calls := [] |} (watch_list ["portal.example"])
           eq_refl eq_refl eq_refl).
Defined.

(** ** The verdict on a url *)

(** With a list of strings in the storage area, [shouldListen] passes
    [verdict] to its callback and asks the server nothing. *)
Lemma exec_shouldListen_cached a url callback c ws :
  area c !! domainsStorageKey = Some (watch_list ws) →
  exec a (shouldListen url callback) c = exec a (callback (verdict ws url)) c.
Proof.
  intros Hws. unfold shouldListen.
  rewrite (exec_getPortalUrls_cached a _ c (watch_list ws)) by done.
  unfold verdict. destruct url as [u|]; [|done]. cbn [of_url truthy].
  destruct (String.eqb_spec u "") as [->|Hu]; [done|]. cbn [negb].
  rewrite some_watch_list. do 3 f_equal. clear Hws.
  induction ws as [|s ws IH]; [done|]. cbn [existsb]. rewrite IH. f_equal.
  unfold String_indexOf. by apply String_indexOf_from_occurs.
Qed.

Lemma truthy_verdict ws url : truthy (verdict ws url) = watched ws url.
Proof.
  unfold verdict, watched. destruct url as [u|]; [|done].
  by destruct (String.eqb_spec u "") as [->|].
Qed.

(** X12.  A url is the extension's when a string of the watch list occurs
    in it.  With a list of strings stored, the callback of [shouldListen]
    gets [undefined] for an absent url, the empty string for an empty one,
    and otherwise [true] or [false]; it gets [true] exactly when the url is
    not empty and some string of the list occurs somewhere in it, at the
    start, in the middle or at the end; the server is not asked. *)
Theorem shouldListen_verdict a url callback c ws :
  area c !! domainsStorageKey = Some (watch_list ws) →
  exec a (shouldListen url callback) c
  = exec a (callback
              match url with
              | None => Undefined
              | Some u => if String.eqb u "" then Str ""
                          else Bool (watched ws url)
              end) c
  ∧ (watched ws url = true
     ↔ ∃ u s pre post,
         url = Some u ∧ u ≠ "" ∧ s ∈ ws ∧ u = pre +:+ s +:+ post).
Proof.
  intros Hws. split; [|apply watched_spec].
  rewrite (exec_shouldListen_cached a url callback c ws Hws).
  unfold verdict, watched. destruct url as [u|]; [|done].
  by destruct (String.eqb u "").
Qed.

Lemma shouldListen_verdict_witness :
  exec {| fetched := fun _ => None; targets := [] |}
    (shouldListen (Some "https://evil.example/?next=portal.example")
       (fun v => if truthy v then Attach 1 "x" Done else Done))
    {| area := {[ domainsStorageKey := watch_list ["portal.example"] ]};
       calls := [] |}
  = ({| area := {[ domainsStorageKey := watch_list ["portal.example"] ]};
        calls := [Attached 1 "x"] |}, None).
Proof.
  rewrite (proj1 (shouldListen_verdict
                    {| fetched := fun _ => None; targets := [] |}
                    (Some "https://evil.example/?next=portal.example")
                    (fun v => if truthy v then Attach 1 "x" Done else Done)
                    {| area := {[ domainsStorageKey := watch_list ["portal.example"] ]};
                       calls := [] |}
                    ["portal.example"]
                    ltac:(apply lookup_singleton_eq))).
  reflexivity.
Defined.

(** ** A page change *)

Lemma unattached_spec tabId ts :
  unattached tabId ts = true
  ↔ ∀ t, t ∈ ts →
         ¬ (Target.type t = "page" ∧ Target.tabId t = Some tabId
            ∧ Target.attached t = true).
Proof.
  unfold unattached. rewrite forallb_forall. split.
  - intros H t Ht (Hty & Htab & Hatt). apply list_elem_of_In, H in Ht.
    rewrite Hty, Htab, Hatt in Ht. cbn in Ht.
    by rewrite bool_decide_eq_true_2 in Ht.
  - intros H t Ht. apply negb_true_iff, not_true_iff_false. intros Hall.
    apply (H t); [by apply list_elem_of_In|].
    apply andb_true_iff in Hall as [Hall Hatt].
    apply andb_true_iff in Hall as [Hty Htab].
    apply String.eqb_eq in Hty. by apply bool_decide_eq_true in Htab.
Qed.

Lemma exec_runIfNotAttached a tabId callback c :
  exec a (runIfNotAttached tabId callback) c
  = if unattached tabId (targets a) then exec a callback c else (c, None).
Proof.
  unfold runIfNotAttached, unattached. cbn [exec].
  induction (targets a) as [|t ts IH]; [done|]. cbn [existsb forallb].
  destruct (String.eqb (Target.type t) "page"
            && bool_decide (Target.tabId t = Some tabId) && Target.attached t);
    [done|]. cbn. apply IH.
Qed.

(** X13.  What a page change does, with a list of strings stored.  It
    attaches the debugger to the tab, with protocol version ['1.0'], then
    enables the network domain and registers one listener for the tab,
    exactly when the changed url is the extension's and no page target of
    the tab has a debugger attached; it detaches exactly when the changed
    url is not the extension's (or the change has none), the status is
    ['complete'] and the url of the tab is not the extension's either;
    otherwise it does nothing.  It never does both, asks the server
    nothing, leaves the storage area alone and raises nothing. *)
Theorem onPageChange_decides a c tabId status url tabUrl ws :
  area c !! domainsStorageKey = Some (watch_list ws) →
  exec a (onPageChange tabId status url tabUrl) c
  = ({| area := area c;
        calls :=
          calls c
          ++ (if watched ws url then
                if unattached tabId (targets a)
                then [Attached tabId "1.0"; Enabled tabId; Listening tabId]
                else []
              else if bool_decide (status = Some "complete")
                      && negb (watched ws tabUrl)
                   then [Detached tabId]
                   else []) |}, None).
Proof.
  intros Hws. unfold onPageChange.
  rewrite (exec_shouldListen_cached a url _ c ws Hws), truthy_verdict.
  destruct (watched ws url).
  - rewrite exec_runIfNotAttached.
    destruct (unattached tabId (targets a)); cbn.
    + unfold called. cbn. by rewrite <- !app_assoc.
    + destruct c. cbn. by rewrite app_nil_r.
  - destruct (bool_decide (status = Some "complete")); cbn [andb].
    + rewrite (exec_shouldListen_cached a tabUrl _ c ws Hws), truthy_verdict.
      destruct (watched ws tabUrl); cbn.
      * destruct c. cbn. by rewrite app_nil_r.
      * done.
    + cbn. destruct c. cbn. by rewrite app_nil_r.
Qed.

Lemma onPageChange_decides_witness :
  exec {| fetched := fun _ => None;
          targets := [ {| Target.type := "page"; Target.tabId := Some 2;
                          Target.attached := true |} ] |}
    (onPageChange 1 (Some "loading") (Some "https://portal.example/home") None)
    {| area := {[ domainsStorageKey := watch_list ["portal.example"] ]};
       calls := [] |}
  = ({| area := {[ domainsStorageKey := watch_list ["portal.example"] ]};
        calls := [Attached 1 "1.0"; Enabled 1; Listening 1] |}, None).
Proof.
  rewrite (onPageChange_decides
             {| fetched := fun _ => None;
                targets := [ {| Target.type := "page"; Target.tabId := Some 2;
                                Target.attached := true |} ] |}
             {| area := {[ domainsStorageKey := watch_list ["portal.example"] ]};
                calls := [] |}
             1 (Some "loading") (Some "https://portal.example/home") None
             ["portal.example"] ltac:(apply lookup_singleton_eq)).
  reflexivity.
Defined.

(** ** A page change, whatever is stored and answered *)

(** [shouldListen] in general: it asks the server at most once, touches
    the storage area under the key of the watch list only, and then ends
    in an exception or runs its callback, on a truthy value only for a url
    that is there and not empty. *)
Lemma exec_shouldListen_cases a url callback c :
  ∃ c1 fs,
    calls c1 = (calls c ++ fs)%list
    ∧ (fs = [] ∨ fs = [Fetched (baseUrl +:+ "/domains")])
    ∧ (∀ key, key ≠ domainsStorageKey → area c1 !! key = area c !! key)
    ∧ ((∃ e, exec a (shouldListen url callback) c = (c1, Some e))
       ∨ (∃ v, exec a (shouldListen url callback) c = exec a (callback v) c1
               ∧ (truthy v = true → ∃ u, url = Some u ∧ u ≠ ""))).
Proof.
  assert (∀ c1 portalUrls,
            (∃ e, exec a
                    match url with
                    | Some u =>
                        if truthy (of_url url) then
                          match some portalUrls
                                  (fun s => -1 <? String_indexOf u s) with
                          | inl e => Fail e
                          | inr found => callback (Bool found)
                          end
                        else callback (of_url url)
                    | None => callback (of_url url)
                    end c1 = (c1, Some e))
            ∨ (∃ v, exec a
                      match url with
                      | Some u =>
                          if truthy (of_url url) then
                            match some portalUrls
                                    (fun s => -1 <? String_indexOf u s) with
                            | inl e => Fail e
                            | inr found => callback (Bool found)
                            end
                          else callback (of_url url)
                      | None => callback (of_url url)
                      end c1 = exec a (callback v) c1
                    ∧ (truthy v = true → ∃ u, url = Some u ∧ u ≠ ""))) as Hin.
  { intros c1 portalUrls. destruct url as [u|].
    - destruct (truthy (of_url (Some u))) eqn:Hu.
      + destruct (some portalUrls _) as [e | found].
        * left. by exists e.
        * right. exists (Bool found). split; [done|]. intros _.
          exists u. split; [done|]. by apply truthy_Str.
      + right. exists (of_url (Some u)). split; [done|]. congruence.
    - right. exists Undefined. split; [done|]. discriminate. }
  unfold shouldListen, getPortalUrls. cbn [exec].
  destruct (truthy (default Undefined (area c !! domainsStorageKey))).
  - exists c, []. rewrite app_nil_r. split_and!; [done | by left | done |].
    apply Hin.
  - cbn [exec]. destruct (fetched a (baseUrl +:+ "/domains")) as [urls|].
    + exists (area_set domainsStorageKey urls
                (called (Fetched (baseUrl +:+ "/domains")) c)),
             [Fetched (baseUrl +:+ "/domains")].
      split_and!; [done | by right | | apply Hin].
      intros key Hne. cbn. by rewrite lookup_insert_ne.
    + exists (called (Fetched (baseUrl +:+ "/domains")) c),
             [Fetched (baseUrl +:+ "/domains")].
      split_and!; [done | by right | done |]. left. by exists SyntaxErr.
Qed.

(** X14.  What a page change can do at all.  Whatever the storage area holds
    and whatever the server and the browser answer, a page change asks the
    server for the watch list at most twice and then does one of three
    things: nothing more; or it detaches the debugger from its own tab,
    which it does only for status ['complete']; or it attaches to its own
    tab with version ['1.0'], enables the network domain and registers one
    listener, which it does only when no page target of the tab has a
    debugger attached and the change carries a url that is not empty.  It
    never attaches and detaches in one change, and it writes the storage
    area under the key of the watch list only. *)
Theorem onPageChange_safe a c tabId status url tabUrl :
  ∃ fs action,
    calls (exec a (onPageChange tabId status url tabUrl) c).1
    = (calls c ++ fs ++ action)%list
    ∧ (∀ k, k ∈ fs → k = Fetched (baseUrl +:+ "/domains"))
    ∧ (length fs ≤ 2)%nat
    ∧ (action = []
       ∨ (action = [Detached tabId] ∧ status = Some "complete")
       ∨ (action = [Attached tabId "1.0"; Enabled tabId; Listening tabId]
          ∧ unattached tabId (targets a) = true
          ∧ ∃ u, url = Some u ∧ u ≠ ""))
    ∧ (∀ key, key ≠ domainsStorageKey →
         area (exec a (onPageChange tabId status url tabUrl) c).1 !! key
         = area c !! key).
Proof.
  unfold onPageChange.
  destruct (exec_shouldListen_cases a url
              (fun isVendorPortalPage =>
                 if truthy isVendorPortalPage then
                   runIfNotAttached tabId
                     (Attach tabId debuggerVersion (onAttached tabId))
                 else if bool_decide (status = Some "complete") then
                   shouldListen tabUrl (fun isVendorPortalTab =>
                     if negb (truthy isVendorPortalTab)
                     then Detach tabId Done else Done)
                 else Done) c)
    as (c1 & fs1 & Hc1 & Hfs1 & Ha1 & [[e ->] | (v & -> & Hv)]).
  { exists fs1, []. rewrite app_nil_r. cbn.
    split_and!; [done | | | by left | done].
    - intros k Hk. destruct Hfs1 as [-> | ->];
        [by apply elem_of_nil in Hk | by apply list_elem_of_singleton in Hk].
    - destruct Hfs1 as [-> | ->]; cbn; lia. }
  assert (∀ k, k ∈ fs1 → k = Fetched (baseUrl +:+ "/domains")) as Hk1.
  { intros k Hk. destruct Hfs1 as [-> | ->];
      [by apply elem_of_nil in Hk | by apply list_elem_of_singleton in Hk]. }
  assert (length fs1 ≤ 1)%nat as Hl1 by (destruct Hfs1 as [-> | ->]; cbn; lia).
  destruct (truthy v) eqn:Htv.
  - rewrite exec_runIfNotAttached.
    destruct (unattached tabId (targets a)) eqn:Hun.
    + exists fs1, [Attached tabId "1.0"; Enabled tabId; Listening tabId].
      cbn. rewrite Hc1, <- !app_assoc.
      split_and!; [done | done | lia | | done].
      right. right. split_and!; [done | done | by apply Hv].
    + exists fs1, []. rewrite app_nil_r. cbn.
      split_and!; [done | done | lia | by left | done].
  - destruct (bool_decide (status = Some "complete")) eqn:Hst.
    + apply bool_decide_eq_true in Hst.
      destruct (exec_shouldListen_cases a tabUrl
                  (fun isVendorPortalTab =>
                     if negb (truthy isVendorPortalTab)
                     then Detach tabId Done else Done) c1)
        as (c2 & fs2 & Hc2 & Hfs2 & Ha2 & [[e ->] | (v2 & -> & _)]).
      * exists (fs1 ++ fs2)%list, []. rewrite app_nil_r. cbn.
        rewrite Hc2, Hc1, <- app_assoc.
        split_and!; [done | | | by left |].
        -- intros k Hk. apply elem_of_app in Hk as [Hk | Hk]; [by apply Hk1|].
           destruct Hfs2 as [-> | ->];
             [by apply elem_of_nil in Hk | by apply list_elem_of_singleton in Hk].
        -- rewrite length_app. destruct Hfs2 as [-> | ->]; cbn; lia.
        -- intros key Hne. by rewrite Ha2, Ha1.
      * assert (∀ k, k ∈ (fs1 ++ fs2)%list → k = Fetched (baseUrl +:+ "/domains"))
          as Hk12.
        { intros k Hk. apply elem_of_app in Hk as [Hk | Hk]; [by apply Hk1|].
          destruct Hfs2 as [-> | ->];
            [by apply elem_of_nil in Hk | by apply list_elem_of_singleton in Hk]. }
        assert (length (fs1 ++ fs2) ≤ 2)%nat as Hl12.
        { rewrite length_app. destruct Hfs2 as [-> | ->]; cbn; lia. }
        destruct (truthy v2); cbn.
        -- exists (fs1 ++ fs2)%list, []. rewrite app_nil_r, Hc2, Hc1, <- app_assoc.
           split_and!; [done | done | done | by left |].
           intros key Hne. by rewrite Ha2, Ha1.
        -- exists (fs1 ++ fs2)%list, [Detached tabId].
           rewrite Hc2, Hc1, <- !app_assoc.
           split_and!; [done | done | done | right; by left |].
           intros key Hne. by rewrite Ha2, Ha1.
    + exists fs1, []. rewrite app_nil_r. cbn.
      split_and!; [done | done | lia | by left | done].
Qed.

(** X15.  A list that cannot be read stops the change.  When the storage
    area holds no list and the answer of the server is no JSON, a page
    change stores nothing, neither attaches nor detaches, and ends in the
    SyntaxError of [JSON.parse]; the next change asks the server again. *)
Theorem unreadable_watch_list a c tabId status url tabUrl :
  truthy (default Undefined (area c !! domainsStorageKey)) = false →
  fetched a (baseUrl +:+ "/domains") = None →
  exec a (onPageChange tabId status url tabUrl) c
  = ({| area := area c;
        calls := calls c ++ [Fetched (baseUrl +:+ "/domains")] |},
     Some SyntaxErr).
Proof.
  intros Hmiss Hans. unfold onPageChange, shouldListen.
  rewrite exec_getPortalUrls_fetched by done. by rewrite Hans.
Qed.

Lemma unreadable_watch_list_witness :
  exec {| fetched := fun _ => None; targets := [] |}
    (onPageChange 1 (Some "complete") (Some "https://portal.example/") None)
    {| area := ∅; calls := [] |}
  = ({| area := ∅; calls := [] ++ [Fetched (baseUrl +:+ "/domains")] |},
     Some SyntaxErr).
Proof.
  exact (unreadable_watch_list {| fetched := fun _ => None; targets := [] |}
           {| area := ∅; calls := [] |} 1 (Some "complete")
           (Some "https://portal.example/") None eq_refl eq_refl).
Defined.

(** X16.  A stored value that is no array breaks every change with a url.
    When the storage area holds a truthy value that is not an array (an
    object, say, or a string) and the change carries a url that is not
    empty, the change ends in the TypeError of calling [some] on that
    value, before any call to the debugger. *)
Theorem watch_list_not_an_array a c tabId status u tabUrl v :
  area c !! domainsStorageKey = Some v →
  truthy v = true →
  (∀ items, v ≠ Arr items) →
  u ≠ "" →
  exec a (onPageChange tabId status (Some u) tabUrl) c
  = (c, Some (TypeErr "some")).
Proof.
  intros Hv Ht Harr Hu. unfold onPageChange, shouldListen.
  rewrite (exec_getPortalUrls_cached a _ c v Hv Ht).
  cbn [of_url]. apply truthy_Str in Hu as ->.
  destruct v; try done. by destruct (Harr items).
Qed.

Lemma watch_list_not_an_array_witness :
  exec {| fetched := fun _ => None; targets := [] |}
    (onPageChange 1 (Some "complete") (Some "https://portal.example/") None)
    {| area := {[ domainsStorageKey := Obj [("domains", Arr [])] ]};
       calls := [] |}
  = ({| area := {[ domainsStorageKey := Obj [("domains", Arr [])] ]};
        calls := [] |}, Some (TypeErr "some")).
Proof.
  apply (watch_list_not_an_array
           {| fetched := fun _ => None; targets := [] |}
           {| area := {[ domainsStorageKey := Obj [("domains", Arr [])] ]};
              calls := [] |} 1 (Some "complete") "https://portal.example/" None
           (Obj [("domains", Arr [])]));
    [apply lookup_singleton_eq | reflexivity | discriminate | discriminate].
Defined.
